(** * generator-aem: property resolution and generator composition

    A shallow embedding of the two Yeoman generators of the repository,

    - [generators/app/index.js] (class [AEMGenerator], the project root), and
    - the integration-tests module generator (class
      [IntegrationTestsGenerator], module type ["tests-it"]),

    together with the fragments of JavaScript, lodash and the Promise
    machinery that these two files rely on.  Generator objects are records;
    a method that assigns to [this] takes the record and returns the new one;
    a method that may throw returns a [completion]. *)

From Stdlib Require Import Ascii String.
From stdpp Require Import gmap strings list fin_maps.

Set Warnings "-register-all".
Set Default Proof Using "Type".

(* ================================================================== *)
(** ** JavaScript values *)
(* ================================================================== *)

(** The values that flow through option bags, the persisted configuration
    and the POM descriptor.  Strings are sequences of code units below 256. *)
Inductive value : Type :=
  | VUndefined
  | VNull
  | VBool (b : bool)
  | VStr (s : string)
  | VArr (l : list value)
  | VObj (o : gmap string value).

(** A plain object used as a property bag: own enumerable data properties. *)
Abbreviation object := (gmap string value).

(** Abrupt completions: the two kinds of exception the modelled code raises. *)
Inductive exn : Type :=
  | TypeError
  | Error (message : string).

Inductive completion (A : Type) : Type :=
  | Normal (a : A)
  | Throw (e : exn).
Arguments Normal {A} a.
Arguments Throw {A} e.

#[global] Instance completion_ret : MRet completion := λ A a, Normal a.
#[global] Instance completion_bind : MBind completion :=
  λ A B f c, match c with Normal a => f a | Throw e => Throw e end.

(** ToBoolean. *)
Definition truthy (v : value) : bool :=
  match v with
  | VUndefined | VNull => false
  | VBool b => b
  | VStr s => negb (String.eqb s "")
  | VArr _ | VObj _ => true
  end.

(** [a || b]. *)
Definition or_else (a b : value) : value := if truthy a then a else b.

(** [o[k]] on a bag: a missing key reads as [undefined]. *)
Definition get (o : object) (k : string) : value := default VUndefined (o !! k).

(** [v.k] on an arbitrary value, for the data keys this program reads
    (["groupId"], ["aemVersion"], ["aem.version"], ["moduleType"]): reading
    from [undefined] or [null] throws, primitives and arrays have no such
    key. *)
Definition member (v : value) (k : string) : completion value :=
  match v with
  | VUndefined | VNull => Throw TypeError
  | VObj o => Normal (get o k)
  | VBool _ | VStr _ | VArr _ => Normal VUndefined
  end.

(** [a === s] against a string literal. *)
Definition is_string (a : value) (s : string) : bool :=
  match a with
  | VStr s' => String.eqb s' s
  | _ => false
  end.

(** ToString. *)
Fixpoint toString (v : value) : string :=
  match v with
  | VUndefined => "undefined"
  | VNull => "null"
  | VBool true => "true"
  | VBool false => "false"
  | VStr s => s
  | VArr l =>
      String.concat ","
        (List.map (λ x, match x with
                        | VUndefined | VNull => ""
                        | _ => toString x
                        end) l)
  | VObj _ => "[object Object]"
  end.

(** [s.replaceAll(c, by)] for a one-character pattern. *)
Fixpoint replaceAll (s : string) (c : ascii) (by_ : string) : string :=
  match s with
  | EmptyString => EmptyString
  | String x s' =>
      if Ascii.eqb x c then by_ +:+ replaceAll s' c by_
      else String x (replaceAll s' c by_)
  end.

(** [s.split(sep)] for a one-character separator: the pieces between the
    separators, the empty string giving one empty piece. *)
Fixpoint split (sep : ascii) (s : string) : list string :=
  match s with
  | EmptyString => [EmptyString]
  | String c s' =>
      if Ascii.eqb c sep then EmptyString :: split sep s'
      else match split sep s' with
           | piece :: pieces => String c piece :: pieces
           | [] => [String c EmptyString]
           end
  end.

(** [v.length === 0], for the values that have a length. *)
Definition has_length_zero (v : value) : bool :=
  match v with
  | VStr s => String.eqb s ""
  | VArr l => match l with [] => true | _ => false end
  | _ => false
  end.

(* ================================================================== *)
(** ** lodash *)
(* ================================================================== *)

Module Lodash.

(** [_.defaults(object, source)]: every key of [source] whose value in
    [object] resolves to [undefined] is assigned from [source]; all other
    keys of [object] are kept. *)
Definition defaults (object source : gmap string value) : gmap string value :=
  merge (λ x y, match x, y with
                | Some VUndefined, Some w => Some w
                | None, _ => y
                | _, _ => x
                end) object source.

(** [_.pick(object, paths)]: the sub-bag on the listed keys that exist. *)
Definition pick (object : gmap string value) (paths : list string)
  : gmap string value :=
  filter (λ kv, kv.1 ∈ paths) object.

(** [_.omit(object, paths)]: a copy without the listed keys. *)
Definition omit (object : gmap string value) (paths : list string)
  : gmap string value :=
  filter (λ kv, kv.1 ∉ paths) object.

(** [_.keys(object)]. *)
Definition keys (object : gmap string value) : list string :=
  (map_to_list object).*1.

(** [_.merge({}, source)]: into a fresh empty object the merge is a copy. *)
Definition merge_fresh (source : gmap string value) : gmap string value :=
  source.

(** [_.isEmpty(v)]: objects, arrays and strings are empty when they have no
    entries; every other value counts as empty. *)
Definition isEmpty (v : value) : bool :=
  match v with
  | VObj o => match map_to_list o with [] => true | _ => false end
  | VArr l => match l with [] => true | _ => false end
  | VStr s => String.eqb s ""
  | VUndefined | VNull | VBool _ => true
  end.

(** The loop of [_.each(collection, iteratee)] over the entries of an object,
    for an iteratee that returns nothing and may throw. *)
Fixpoint forEach (entries : list (string * value))
    (iteratee : value → string → completion unit) : completion unit :=
  match entries with
  | [] => Normal ()
  | (k, v) :: rest => _ ← iteratee v k; forEach rest iteratee
  end.

Definition each (collection : gmap string value)
    (iteratee : value → string → completion unit) : completion unit :=
  forEach (map_to_list collection) iteratee.

End Lodash.

(* ================================================================== *)
(** ** Regular expressions with a one-character pattern *)
(* ================================================================== *)

Module RegExp.

(** A RegExp object whose pattern matches one code unit.  With the [g] flag
    the object remembers in [lastIndex] where the previous successful [test]
    ended, and the next [test] starts there. *)
Record t : Type := {
  matches : ascii → bool;
  global : bool;
  lastIndex : nat
}.

Fixpoint skip (n : nat) (s : string) : string :=
  match n with
  | O => s
  | S n' =>
      match s with
      | String _ s' => skip n' s'
      | EmptyString => EmptyString
      end
  end.

(** Index of the first code unit of [s] the pattern matches. *)
Fixpoint search (p : ascii → bool) (s : string) : option nat :=
  match s with
  | EmptyString => None
  | String c s' => if p c then Some O else S <$> search p s'
  end.

(** [re.test(s)]: the answer and the RegExp object afterwards. *)
Definition test (re : t) (s : string) : bool * t :=
  let start := if global re then lastIndex re else O in
  match search (matches re) (skip start s) with
  | Some i =>
      (true,
       if global re
       then {| matches := matches re; global := true;
               lastIndex := start + i + 1 |}
       else re)
  | None =>
      (false,
       if global re
       then {| matches := matches re; global := true; lastIndex := O |}
       else re)
  end.

End RegExp.

(* ================================================================== *)
(** ** Promises *)
(* ================================================================== *)

Module Promise.

(** How a promise ends: fulfilled, rejected, or never settled. *)
Inductive t : Type :=
  | Fulfilled (v : value)
  | Rejected (reason : exn)
  | Pending.

(** What is handed to [then]: a function, which is called with the
    fulfilment value and may assign to the state [S], or a value that is not
    callable (here: another promise), which [then] ignores. *)
Inductive reaction (S : Type) : Type :=
  | Callable (f : value → S → completion value * S)
  | NotCallable (ignored : t).
Arguments Callable {S} f.
Arguments NotCallable {S} ignored.

(** [p.then(onFulfilled)] for a chain [p] that runs on the state at the time
    it settles. *)
Definition then_ {S : Type} (p : S → t * S) (onFulfilled : reaction S)
  : S → t * S :=
  λ s,
    let '(r, s1) := p s in
    match r, onFulfilled with
    | Fulfilled v, Callable f =>
        match f v s1 with
        | (Normal w, s2) => (Fulfilled w, s2)
        | (Throw e, s2) => (Rejected e, s2)
        end
    | _, _ => (r, s1)
    end.

End Promise.

(* ================================================================== *)
(** ** Yeoman generator objects *)
(* ================================================================== *)

(** The state of a generator instance that the two classes read and assign:
    [this.options], the persisted configuration [this.config.getAll()],
    [this.props], the two root directories, [this.relativePath], and the
    calls made so far to the collaborators ([composeWith], [_latestRelease],
    [_writing]). *)
Record Generator : Type := {
  options : gmap string value;
  config : gmap string value;
  props : gmap string value;
  destinationRoot : string;
  contextRoot : string;
  relativePath : value;
  composed : list (string * gmap string value);
  requested : list value;
  written : list (list string * gmap string value)
}.

Definition set_options (o : gmap string value) (g : Generator) : Generator :=
  {| options := o; config := config g; props := props g;
     destinationRoot := destinationRoot g; contextRoot := contextRoot g;
     relativePath := relativePath g; composed := composed g;
     requested := requested g; written := written g |}.

Definition set_props (p : gmap string value) (g : Generator) : Generator :=
  {| options := options g; config := config g; props := p;
     destinationRoot := destinationRoot g; contextRoot := contextRoot g;
     relativePath := relativePath g; composed := composed g;
     requested := requested g; written := written g |}.

(** [this.composeWith(path, options)]: the call is recorded. *)
Definition composeWith (path : string) (o : gmap string value) (g : Generator)
  : Generator :=
  {| options := options g; config := config g; props := props g;
     destinationRoot := destinationRoot g; contextRoot := contextRoot g;
     relativePath := relativePath g; composed := composed g ++ [(path, o)];
     requested := requested g; written := written g |}.

(** A call of [this._latestRelease(coordinates)] is recorded. *)
Definition request (coordinates : value) (g : Generator) : Generator :=
  {| options := options g; config := config g; props := props g;
     destinationRoot := destinationRoot g; contextRoot := contextRoot g;
     relativePath := relativePath g; composed := composed g;
     requested := requested g ++ [coordinates]; written := written g |}.

(** [this._writing(files)] hands the template list and the bag [this.props]
    to the emission collaborator: the call is recorded with the bag as it is
    at that moment. *)
Definition _writing (files : list string) (g : Generator) : Generator :=
  {| options := options g; config := config g; props := props g;
     destinationRoot := destinationRoot g; contextRoot := contextRoot g;
     relativePath := relativePath g; composed := composed g;
     requested := requested g; written := written g ++ [(files, props g)] |}.

(** [v.k] where the code has already tested [v] to be truthy. *)
Definition prop_of (v : value) (k : string) : value :=
  match v with
  | VObj o => get o k
  | _ => VUndefined
  end.

(* ================================================================== *)
(** ** generators/app/index.js: [AEMGenerator] *)
(* ================================================================== *)

Module AEMGenerator.

Section Collaborators.

(** [path.relative], [path.join]. *)
Variable path_relative : string → string → string.
Variable path_join : string → string → string.
(** [GeneratorCommons.readPom(dir)], the descriptor of the directory. *)
Variable readPom : string → gmap string value.
(** [_.keys(GeneratorCommons.options)]. *)
Variable GeneratorCommons_options : list string.
(** [GeneratorCommons.props(this)], the shared properties. *)
Variable GeneratorCommons_props : Generator → gmap string value.
(** [require.resolve]. *)
Variable require_resolve : value → completion string.

Definition unique : list string := ["groupId"; "version"; "aemVersion"].

(** Lines 47-52: the [type] of the [modules] option, [arg.split(',')]. *)
Definition modules_type (arg : string) : value :=
  VArr (VStr <$> split "," arg).

(** Line 66: where the project lives, before [generateInto] is deleted. *)
Definition dest (g : Generator) : value :=
  or_else (get (options g) "generateInto")
          (VStr (path_relative (destinationRoot g) (contextRoot g))).

(** Lines 72-80: the root's unique properties from the options, the
    persisted configuration and the descriptor. *)
Definition populate (options config pom : gmap string value)
  : gmap string value :=
  let props := ∅ in
  let props := Lodash.defaults props (Lodash.pick options unique) in
  let props := Lodash.defaults props (Lodash.pick config unique) in
  let props := Lodash.defaults props (Lodash.omit pom ["pomProperties"]) in
  if truthy (get pom "pomProperties")
     && truthy (prop_of (get pom "pomProperties") "aem.version")
  then <["aemVersion" :=
           or_else (get props "aemVersion")
                   (prop_of (get pom "pomProperties") "aem.version")]> props
  else props.

(** Line 87: the hard-coded fallbacks. *)
Definition fallback : gmap string value :=
  {[ "version" := VStr "1.0.0-SNAPSHOT"; "aemVersion" := VStr "cloud" ]}.

(** The values [modules[m]] that [for (const m in modules)] visits. *)
Definition module_entries (modules : value) : list value :=
  match modules with
  | VArr l => l
  | VObj o => (map_to_list o).*2
  | VStr s => (λ c, VStr (String c EmptyString)) <$> list_ascii_of_string s
  | VUndefined | VNull | VBool _ => []
  end.

(** Lines 96-100. *)
Fixpoint compose_modules (entries : list value)
    (moduleOptions : gmap string value) (g : Generator)
  : completion Generator :=
  match entries with
  | [] => Normal g
  | m :: rest =>
      p ← require_resolve m;
      compose_modules rest moduleOptions (composeWith p moduleOptions g)
  end.

(** Lines 67-80: the generator as [GeneratorCommons.props(this)] finds it,
    for a project directory [d]. *)
Definition unique_props (g : Generator) (d : string) : Generator :=
  let g := set_options (delete "generateInto" (options g)) g in
  let pom := readPom (path_join (destinationRoot g) d) in
  set_props (populate (options g) (config g) pom) g.

Definition initializing (g : Generator) : completion Generator :=
  match dest g with
  | VStr d =>
      let g := unique_props g d in
      let g :=
        set_props (Lodash.defaults (props g) (GeneratorCommons_props g)) g in
      let g :=
        if truthy (get (options g) "defaults")
        then set_props (Lodash.defaults (props g) fallback) g
        else g in
      let moduleOptions :=
        Lodash.merge_fresh (Lodash.pick (props g) GeneratorCommons_options) in
      let moduleOptions := <["parent" := VObj (props g)]> moduleOptions in
      compose_modules (module_entries (get (options g) "modules"))
                      moduleOptions g
  | _ => Throw TypeError
  end.

End Collaborators.

End AEMGenerator.

(* ================================================================== *)
(** ** The integration-tests module generator *)
(* ================================================================== *)

Module IntegrationTestsGenerator.

Definition is_letter (c : ascii) : bool :=
  let n := nat_of_ascii c in
  (97 <=? n) && (n <=? 122) || (65 <=? n) && (n <=? 90).

(** [const invalidPackageRegex = /[^a-zA-Z.]/g], as it is when the module is
    loaded.  The object is shared by every generator instance of the
    process. *)
Definition invalidPackageRegex : RegExp.t :=
  {| RegExp.matches := λ c, negb (is_letter c || Ascii.eqb c ".");
     RegExp.global := true;
     RegExp.lastIndex := 0 |}.

Definition uniqueProperties : list string := ["package"; "publish"].

Definition IntegrationTestsModuleType : string := "tests-it".

Definition testClientCoordinates (version : value) : value :=
  if is_string version "cloud"
  then VObj {[ "groupId" := VStr "com.adobe.cq";
               "artifactId" := VStr "aem-cloud-testing-clients" ]}
  else VObj {[ "groupId" := VStr "com.adobe.cq";
               "artifactId" := VStr "cq-testing-clients-65" ]}.

Section Mixins.

(** The methods mixed in from [lib/module-mixins.js] and the environment. *)
Variable _initializing : Generator → completion Generator.
Variable _listTemplates : string → list string.
Variable _latestRelease : value → Promise.t.
Variable _apiCoordinates : value → value.
(** [path.sep] and [path.join(dirname, '..', 'app')]. *)
Variable path_sep : string.
Variable app_generator : string.

(** Lines 69-74: the bag from the options, an invalid package removed.
    [re] is the RegExp object [invalidPackageRegex] as the call finds it. *)
Definition initial_bag (re : RegExp.t) (g : Generator)
  : RegExp.t * Generator :=
  let g :=
    set_props (Lodash.defaults ∅ (Lodash.pick (options g) uniqueProperties))
              g in
  if truthy (get (props g) "package") then
    let '(invalid, re) :=
      RegExp.test re (toString (get (props g) "package")) in
    (re, if invalid then set_props (delete "package" (props g)) g else g)
  else (re, g).

(** Lines 78-80. *)
Definition package_from_parent (g : Generator) : completion Generator :=
  groupId ← member (get (props g) "parent") "groupId";
  Normal
    (if truthy groupId
     then set_props
            (<["package" := or_else (get (props g) "package") groupId]>
               (props g)) g
     else g).

(** Lines 82-84. *)
Definition publish_default (g : Generator) : Generator :=
  if truthy (get (options g) "defaults")
  then set_props
         (<["publish" := or_else (get (props g) "publish") (VBool true)]>
            (props g)) g
  else g.

Definition initializing (re : RegExp.t) (g : Generator)
  : completion (RegExp.t * Generator) :=
  let '(re, g) := initial_bag re g in
  g ← _initializing g;
  g ← package_from_parent g;
  Normal (re, publish_default g).

(** Lines 94-104: what the promise of [validate] resolves to.  The first
    call of [resolve] settles it; the closing [resolve(true)] only counts
    when neither message was given. *)
Definition validate (re : RegExp.t) (package_ : value) : value * RegExp.t :=
  if negb (truthy package_) || has_length_zero package_
  then (VStr "Package must be provided.", re)
  else
    let '(invalid, re) := RegExp.test re (toString package_) in
    (if invalid
     then VStr "Package must only contain letters or periods (.)."
     else VBool true,
     re).

(** Lines 106-114: whether the package question is asked. *)
Definition when_package (properties : gmap string value) : bool :=
  negb (truthy (get properties "defaults")
        && truthy (get properties "package")).

(** Line 121: whether the publish question is asked. *)
Definition when_publish (properties : gmap string value) : bool :=
  match get properties "publish" with
  | VUndefined => true
  | _ => false
  end.

(** The iteratee of line 136. *)
Definition refuse_second (g : Generator) (value : value) (key : string)
  : completion unit :=
  moduleType ← member value "moduleType";
  if truthy moduleType
     && is_string moduleType IntegrationTestsModuleType
     && negb (is_string (relativePath g) key)
  then Throw (Error "Refusing to create a second Integration Testing module.")
  else Normal ().

Definition default (g : Generator) : completion Generator :=
  if Lodash.isEmpty (get (options g) "parent") then
    _ ← Lodash.each (config g) (refuse_second g);
    Normal
      (composeWith app_generator
         {[ "generateInto" := VStr (destinationRoot g);
            "showBuildOutput" := get (options g) "showBuildOutput" ]} g)
  else Normal g.

(** Lines 148-153: the templates to emit. *)
Definition files (g : Generator) : list string :=
  _listTemplates "shared"
  ++ (if truthy (get (props g) "publish") then _listTemplates "publish"
      else []).

(** The callback of lines 156-158. *)
Definition on_client (clientMetadata : value) (g : Generator)
  : completion value * Generator :=
  (Normal VUndefined,
   set_props (<["testingClient" := clientMetadata]> (props g)) g).

(** The callback of lines 160-164. *)
Definition on_aem (files : list string) (aemMetadata : value) (g : Generator)
  : completion value * Generator :=
  let g := set_props (<["aem" := aemMetadata]> (props g)) g in
  match get (props g) "package" with
  | VStr package =>
      let g :=
        set_props
          (<["packagePath" := VStr (replaceAll package "." path_sep)]>
             (props g)) g in
      (Normal VUndefined, _writing files g)
  | _ => (Throw TypeError, g)
  end.

(** Lines 147-165.  The argument of the second [then] is the promise that the
    call [this._latestRelease(this._apiCoordinates(...))] returns, made while
    the chain is built. *)
Definition writing (g : Generator) : completion (Promise.t * Generator) :=
  let files := files g in
  aemVersion ← member (get (props g) "parent") "aemVersion";
  let client := testClientCoordinates aemVersion in
  let g := request client g in
  let chain :=
    Promise.then_ (λ g, (_latestRelease client, g))
                  (Promise.Callable on_client) in
  let api := _apiCoordinates aemVersion in
  let g := request api g in
  let chain := Promise.then_ chain (Promise.NotCallable (_latestRelease api)) in
  let chain := Promise.then_ chain (Promise.Callable (on_aem files)) in
  Normal (chain g).

End Mixins.

End IntegrationTestsGenerator.

(* ================================================================== *)
(** ** Reference definitions and sample inputs *)
(* ================================================================== *)

(** [null] or [undefined]. *)
Definition nullish (v : value) : bool :=
  match v with
  | VUndefined | VNull => true
  | _ => false
  end.

(** The first value of a list of candidates that is not [undefined]. *)
Fixpoint first_defined (candidates : list value) : value :=
  match candidates with
  | [] => VUndefined
  | VUndefined :: rest => first_defined rest
  | v :: _ => v
  end.

(** The descriptor's target platform, [pom.pomProperties['aem.version']]. *)
Definition aem_version (pom : gmap string value) : value :=
  prop_of (get pom "pomProperties") "aem.version".

(** What the root resolves for one of its unique properties.  [supplied] is
    the first value other than [undefined] among options, persisted
    configuration and descriptor, in this order.  For ["groupId"] and
    ["version"], and for ["aemVersion"] when the descriptor platform is not
    truthy, the result is the first value other than [undefined] among
    [supplied], the shared properties and - when defaults are asked for -
    the hard-coded fallback.  For ["aemVersion"] with a truthy descriptor
    platform the result is [supplied] if [supplied] is truthy and the
    descriptor platform otherwise: a falsy [supplied] (the empty string,
    say) gives way to the platform even when a later source among the three
    holds a truthy value. *)
Definition precedence (k : string) (options config pom shared : gmap string value)
    (use_defaults : bool) : value :=
  let supplied := first_defined [get options k; get config k; get pom k] in
  if String.eqb k "aemVersion" && truthy (aem_version pom)
  then or_else supplied (aem_version pom)
  else first_defined
         [supplied; get shared k;
          if use_defaults then get AEMGenerator.fallback k else VUndefined].

(** A persisted record that makes the candidate a second integration-tests
    module: it has the singleton module type and lives under another path. *)
Definition second_module (g : Generator) (key : string) (record : value)
  : Prop :=
  config g !! key = Some record
  ∧ prop_of record "moduleType"
    = VStr IntegrationTestsGenerator.IntegrationTestsModuleType
  ∧ relativePath g ≠ VStr key.

(** A shared-properties helper that reads nothing of the generator but its
    two bags, its configuration and its directories. *)
Definition reads_generator_state (shared : Generator → gmap string value)
  : Prop :=
  ∀ x y : Generator,
    options x = options y → config x = config y → props x = props y →
    destinationRoot x = destinationRoot y → contextRoot x = contextRoot y →
    shared x = shared y.

(** The RegExp object [invalidPackageRegex] with a given [lastIndex]. *)
Definition invalidPackageRegex_at (n : nat) : RegExp.t :=
  {| RegExp.matches :=
       RegExp.matches IntegrationTestsGenerator.invalidPackageRegex;
     RegExp.global := true;
     RegExp.lastIndex := n |}.

(** The answers of [n] calls of [re.test(s)] in a row, and the object left. *)
Fixpoint repeat_test (n : nat) (re : RegExp.t) (s : string)
  : list bool * RegExp.t :=
  match n with
  | O => ([], re)
  | S n' =>
      let '(answer, re) := RegExp.test re s in
      let '(answers, re) := repeat_test n' re s in
      (answer :: answers, re)
  end.

(** How many code units of [s] the pattern [p] matches. *)
Fixpoint count_matches (p : ascii → bool) (s : string) : nat :=
  match s with
  | EmptyString => 0
  | String c s' => (if p c then 1 else 0) + count_matches p s'
  end.

(** Whether the code unit [c] occurs in [s]. *)
Fixpoint occurs (c : ascii) (s : string) : bool :=
  match s with
  | EmptyString => false
  | String x s' => Ascii.eqb x c || occurs c s'
  end.

(** A package name made of letters and periods only. *)
Definition only_letters_and_periods (s : string) : bool :=
  forallb (λ c, IntegrationTestsGenerator.is_letter c || Ascii.eqb c ".")
          (list_ascii_of_string s).

(** A component of the generator a phase leaves behind, when the phase ends
    normally. *)
Definition after {A : Type} (component : Generator → A)
    (r : completion Generator) : option A :=
  match r with
  | Normal g => Some (component g)
  | Throw _ => None
  end.

Definition bag_after (r : completion (RegExp.t * Generator))
  : option (gmap string value) :=
  match r with
  | Normal (_, g) => Some (props g)
  | Throw _ => None
  end.

(** What a settled write phase handed to the emission collaborator: for each
    call the template list and the values of [testingClient] and [aem] in
    the context. *)
Definition emitted (r : completion (Promise.t * Generator))
  : option (Promise.t * list (list string * value * value)) :=
  match r with
  | Normal (outcome, g) =>
      Some (outcome,
            (λ call, (call.1, get call.2 "testingClient", get call.2 "aem"))
              <$> written g)
  | Throw _ => None
  end.

Module Scenario.

(** Modelled from the spec: [_initializing] of [lib/module-mixins.js] is not
    among the sources.  Section 3 says that a child node receives the
    parent's resolved bag as a read-only [parent] reference next to its own
    local bag; this stand-in stores that reference and does nothing else.  It
    only serves to run the generator on concrete inputs. *)
Definition sample_initializing (g : Generator) : completion Generator :=
  Normal (set_props (<["parent" := get (options g) "parent"]> (props g)) g).

(** A generator instance before its first phase. *)
Definition instance (o c : gmap string value) (rel : string) : Generator :=
  {| options := o; config := c; props := ∅;
     destinationRoot := "/work/site"; contextRoot := "/work/site";
     relativePath := VStr rel;
     composed := []; requested := []; written := [] |}.

(** An instance whose bag is already resolved. *)
Definition resolved (o p : gmap string value) : Generator :=
  set_props p (instance o ∅ "it.tests").

Definition templates (set : string) : list string :=
  if String.eqb set "shared" then ["pom.xml"; "src/main/java/AdminIT.java"]
  else if String.eqb set "publish" then ["src/main/java/PublishIT.java"]
  else [].

Definition parent_bag : value :=
  VObj {[ "groupId" := VStr "com.example"; "aemVersion" := VStr "cloud" ]}.

(** A project that already has an integration-tests module under ["it"] and
    an application module under ["core"]. *)
Definition project : gmap string value :=
  {[ "groupId" := VStr "com.example";
     "core" := VObj {[ "moduleType" := VStr "app" ]};
     "it" := VObj {[ "moduleType" := VStr "tests-it" ]} ]}.

(** Sample collaborators of the write phase: the platform-API coordinates,
    and a metadata service that knows the cloud testing client and fails for
    every other artifact. *)
Definition api_coordinates (version : value) : value :=
  VObj {[ "groupId" := VStr "com.adobe.aem";
          "artifactId" :=
            if is_string version "cloud" then VStr "aem-sdk-api"
            else VStr "uber-jar" ]}.

Definition release (coordinates : value) : Promise.t :=
  if is_string (prop_of coordinates "artifactId") "aem-cloud-testing-clients"
  then Promise.Fulfilled (VObj {[ "version" := VStr "1.2.0" ]})
  else Promise.Rejected (Error "metadata service unavailable").

(** A metadata service that answers every request. *)
Definition release_all (coordinates : value) : Promise.t :=
  Promise.Fulfilled
    (VObj {[ "artifactId" := prop_of coordinates "artifactId";
             "version" := VStr "1.2.0" ]}).

(** Sample collaborators of the project root: a descriptor on disk, shared
    properties picked from the options, and module resolution by name. *)
Definition path_relative (from to : string) : string := "site".

Definition path_join (a b : string) : string := a +:+ "/" +:+ b.

Definition readPom (dir : string) : gmap string value :=
  {[ "groupId" := VStr "com.pom"; "artifactId" := VStr "pom-artifact";
     "version" := VStr "0.0.1";
     "pomProperties" := VObj {[ "aem.version" := VStr "6.5.7" ]} ]}.

Definition common_options : list string :=
  ["defaults"; "examples"; "name"; "appId"; "artifactId"].

Definition shared_props (g : Generator) : gmap string value :=
  Lodash.pick (options g) common_options.

Definition require_resolve (m : value) : completion string :=
  match m with
  | VStr name => Normal ("generators/" +:+ name)
  | _ => Throw (Error "Cannot find module")
  end.

(** The project root run from [/work/site], told on the command line to
    generate into ["site"], with a version, an artifact id, an empty target
    platform and one module; the persisted configuration has a group id. *)
Definition root : Generator :=
  {| options :=
       {[ "generateInto" := VStr "site"; "version" := VStr "2.0.0";
          "artifactId" := VStr "cli-artifact"; "aemVersion" := VStr "";
          "modules" := VArr [VStr "tests-it"] ]};
     config := {[ "groupId" := VStr "com.config" ]};
     props := ∅;
     destinationRoot := "/work"; contextRoot := "/work/site";
     relativePath := VUndefined;
     composed := []; requested := []; written := [] |}.

(** The same generator object when its first phase has run once. *)
Definition root_again : Generator :=
  match
    AEMGenerator.initializing path_relative path_join readPom common_options
      shared_props require_resolve root
  with
  | Normal g => g
  | Throw _ => root
  end.

(** The tool run on its own in that project, for a module under
    ["it.tests"]. *)
Definition standalone : Generator := instance ∅ project "it.tests".

(** The same module composed by the project root. *)
Definition child : Generator :=
  instance {[ "parent" := parent_bag ]} project "it.tests".

(** A child given a package with digits. *)
Definition invalid_package : Generator :=
  instance {[ "package" := VStr "com123"; "parent" := parent_bag ]} ∅
           "it.tests".

(** A child told that there is no publish tier, with defaults switched on. *)
Definition no_publish : Generator :=
  instance {[ "publish" := VBool false; "defaults" := VBool true;
              "parent" := parent_bag ]} ∅ "it.tests".

(** An instance given the package ["com1"]. *)
Definition digit_package : Generator :=
  instance {[ "package" := VStr "com1" ]} ∅ "it.tests".

(** A child about to write, its bag resolved. *)
Definition ready : Generator :=
  resolved {[ "parent" := parent_bag ]}
           {[ "package" := VStr "com.example"; "publish" := VBool true;
              "parent" := parent_bag ]}.

(** The project root given an empty target platform on the command line,
    in a project whose persisted configuration names platform 6.5. *)
Definition root_configured_platform : Generator :=
  {| options := {[ "aemVersion" := VStr "" ]};
     config := {[ "aemVersion" := VStr "6.5" ]};
     props := ∅;
     destinationRoot := "/work"; contextRoot := "/work/site";
     relativePath := VUndefined;
     composed := []; requested := []; written := [] |}.

(** A project directory without a descriptor. *)
Definition no_pom (dir : string) : gmap string value := ∅.

(** The project root asked for defaults only. *)
Definition root_defaults : Generator :=
  {| options := {[ "defaults" := VBool true ]};
     config := ∅;
     props := ∅;
     destinationRoot := "/work"; contextRoot := "/work/site";
     relativePath := VUndefined;
     composed := []; requested := []; written := [] |}.

Definition root_defaults_done : Generator :=
  match
    AEMGenerator.initializing path_relative path_join no_pom common_options
      shared_props require_resolve root_defaults
  with
  | Normal g => g
  | Throw _ => root_defaults
  end.

(** An instance given a well-formed package. *)
Definition valid_package : Generator :=
  instance {[ "package" := VStr "com.mysite" ]} ∅ "it.tests".

(** The generators [no_publish] and [invalid_package] when their first
    phase has run, with the stand-in mixin. *)
Definition no_publish_done : Generator :=
  match
    IntegrationTestsGenerator.initializing sample_initializing
      IntegrationTestsGenerator.invalidPackageRegex no_publish
  with
  | Normal (_, g) => g
  | Throw _ => no_publish
  end.

Definition invalid_package_done : Generator :=
  match
    IntegrationTestsGenerator.initializing sample_initializing
      IntegrationTestsGenerator.invalidPackageRegex invalid_package
  with
  | Normal (_, g) => g
  | Throw _ => invalid_package
  end.

(** A metadata service that is down. *)
Definition release_none (coordinates : value) : Promise.t :=
  Promise.Rejected (Error "metadata service unavailable").

(** A child about to write whose bag has no package. *)
Definition ready_without_package : Generator :=
  resolved {[ "parent" := parent_bag ]}
           {[ "publish" := VBool true; "parent" := parent_bag ]}.

End Scenario.

(* ================================================================== *)
(** ** Facts about the JavaScript fragment *)
(* ================================================================== *)

Section ValueFacts.

Implicit Types (o s : gmap string value) (k : string) (v : value).

Lemma is_string_true v str : is_string v str = true ↔ v = VStr str.
Proof.
  destruct v; simpl; try (split; [discriminate | congruence]).
  rewrite String.eqb_eq. split; congruence.
Qed.

Lemma is_string_false v str : is_string v str = false ↔ v ≠ VStr str.
Proof.
  rewrite <- not_true_iff_false, is_string_true. reflexivity.
Qed.

Lemma get_empty k : get ∅ k = VUndefined.
Proof. unfold get. by rewrite lookup_empty. Qed.

Lemma get_insert o k k' v :
  get (<[k:=v]> o) k' = if decide (k = k') then v else get o k'.
Proof. unfold get. rewrite lookup_insert. by case_decide. Qed.

Lemma get_delete o k k' :
  get (delete k o) k' = if decide (k = k') then VUndefined else get o k'.
Proof. unfold get. rewrite lookup_delete. by case_decide. Qed.

(** [_.defaults] keeps what is defined and fills what is not. *)
Lemma get_defaults o s k :
  get (Lodash.defaults o s) k = first_defined [get o k; get s k].
Proof.
  unfold get, Lodash.defaults. rewrite lookup_merge.
  destruct (o !! k) as [[]|], (s !! k) as [[]|]; reflexivity.
Qed.

Lemma defaults_empty s : Lodash.defaults ∅ s = s.
Proof.
  apply map_eq. intros k. unfold Lodash.defaults.
  rewrite lookup_merge, lookup_empty. by destruct (s !! k).
Qed.

Lemma lookup_pick o paths k :
  Lodash.pick o paths !! k = if decide (k ∈ paths) then o !! k else None.
Proof.
  unfold Lodash.pick. rewrite map_lookup_filter.
  destruct (o !! k) as [x|]; simpl; [|by case_decide].
  case_decide.
  - by rewrite option_guard_True.
  - by rewrite option_guard_False.
Qed.

Lemma get_pick o paths k :
  get (Lodash.pick o paths) k
  = if decide (k ∈ paths) then get o k else VUndefined.
Proof.
  unfold get. rewrite lookup_pick. by case_decide.
Qed.

Lemma get_omit o paths k :
  get (Lodash.omit o paths) k
  = if decide (k ∈ paths) then VUndefined else get o k.
Proof.
  unfold get, Lodash.omit. rewrite map_lookup_filter.
  destruct (o !! k) as [x|]; simpl; [|by case_decide].
  case_decide.
  - rewrite option_guard_False; [done|]. simpl. tauto.
  - by rewrite option_guard_True.
Qed.

Lemma member_not_nullish v k :
  nullish v = false → member v k = Normal (prop_of v k).
Proof. by destruct v. Qed.

(** A loop whose iteratee can only fail with [e] fails with [e] as soon as
    one entry makes it fail, and ends normally otherwise. *)
Lemma forEach_throw entries iteratee e :
  (∀ key x, (key, x) ∈ entries →
     iteratee x key = Normal () ∨ iteratee x key = Throw e) →
  (∃ key x, (key, x) ∈ entries ∧ iteratee x key = Throw e) →
  Lodash.forEach entries iteratee = Throw e.
Proof.
  induction entries as [|[key x] rest IH]; intros Hall (key' & x' & Hin & Hthrow).
  - by apply elem_of_nil in Hin.
  - simpl. destruct (Hall key x) as [Hok|Hko]; [left| |]; rewrite ?Hko; [|done].
    rewrite Hok. simpl. apply IH.
    + intros ???. apply Hall. by right.
    + apply elem_of_cons in Hin as [[= -> ->]|Hin]; [congruence|eauto].
Qed.

Lemma forEach_normal entries iteratee :
  (∀ key x, (key, x) ∈ entries → iteratee x key = Normal ()) →
  Lodash.forEach entries iteratee = Normal ().
Proof.
  induction entries as [|[key x] rest IH]; intros Hall; [done|].
  simpl. rewrite (Hall key x) by left. simpl. apply IH.
  intros ???. apply Hall. by right.
Qed.

End ValueFacts.

(* ================================================================== *)
(** ** The integration-tests generator: coordinates, templates, composition *)
(* ================================================================== *)

(** C9: [testClientCoordinates] is a lookup on the platform tag.  For
    ["cloud"] it answers group ["com.adobe.cq"], artifact
    ["aem-cloud-testing-clients"]; for every other input, group
    ["com.adobe.cq"], artifact ["cq-testing-clients-65"]. *)
Theorem testClientCoordinates_lookup :
  IntegrationTestsGenerator.testClientCoordinates (VStr "cloud")
  = VObj {[ "groupId" := VStr "com.adobe.cq";
            "artifactId" := VStr "aem-cloud-testing-clients" ]}
  ∧ ∀ version : value,
      version ≠ VStr "cloud" →
      IntegrationTestsGenerator.testClientCoordinates version
      = VObj {[ "groupId" := VStr "com.adobe.cq";
                "artifactId" := VStr "cq-testing-clients-65" ]}.
Proof.
  split; [reflexivity|].
  intros version Hversion. unfold IntegrationTestsGenerator.testClientCoordinates.
  apply is_string_false in Hversion. by rewrite Hversion.
Qed.

Lemma testClientCoordinates_legacy_65 :
  VStr "6.5" ≠ VStr "cloud"
  ∧ IntegrationTestsGenerator.testClientCoordinates (VStr "6.5")
    = VObj {[ "groupId" := VStr "com.adobe.cq";
              "artifactId" := VStr "cq-testing-clients-65" ]}.
Proof.
  split; [discriminate|].
  apply testClientCoordinates_lookup. discriminate.
Defined.

Section IntegrationTestsFacts.

Variable _initializing : Generator → completion Generator.
Variable _listTemplates : string → list string.
Variable _latestRelease : value → Promise.t.
Variable _apiCoordinates : value → value.
Variable path_sep : string.
Variable app_generator : string.

Local Abbreviation files := (IntegrationTestsGenerator.files _listTemplates).
Local Abbreviation writing :=
  (IntegrationTestsGenerator.writing
     _listTemplates _latestRelease _apiCoordinates path_sep).
Local Abbreviation refused :=
  (Error "Refusing to create a second Integration Testing module.").

(** C6: the template list always starts with the whole shared set; with a
    truthy [publish] it is the shared set followed by the publish set, with a
    falsy [publish] it is the shared set alone; and it depends on the bag
    only through the truth value of [publish]. *)
Theorem files_shared_then_publish (g : Generator) :
  _listTemplates "shared" `prefix_of` files g
  ∧ (truthy (get (props g) "publish") = true →
     files g = _listTemplates "shared" ++ _listTemplates "publish")
  ∧ (truthy (get (props g) "publish") = false →
     files g = _listTemplates "shared")
  ∧ (∀ g' : Generator,
       truthy (get (props g') "publish") = truthy (get (props g) "publish") →
       files g' = files g).
Proof.
  unfold IntegrationTestsGenerator.files. repeat split.
  - by eexists.
  - by intros ->.
  - intros ->. by rewrite app_nil_r.
  - by intros g' ->.
Qed.

Lemma truthy_module_type (v : value) :
  truthy v && is_string v IntegrationTestsGenerator.IntegrationTestsModuleType
  = is_string v IntegrationTestsGenerator.IntegrationTestsModuleType.
Proof.
  destruct v as [| |b|s|l|o]; simpl; try done; [by rewrite andb_false_r|].
  destruct (String.eqb_spec s IntegrationTestsGenerator.IntegrationTestsModuleType)
    as [->|]; [done|by rewrite andb_false_r].
Qed.

(** What the iteratee of the duplicate check does on an entry that is
    neither [null] nor [undefined]. *)
Lemma refuse_second_record (g : Generator) (x : value) (key : string) :
  nullish x = false →
  IntegrationTestsGenerator.refuse_second g x key
  = if is_string (prop_of x "moduleType")
         IntegrationTestsGenerator.IntegrationTestsModuleType
       && negb (is_string (relativePath g) key)
    then Throw refused else Normal ().
Proof.
  intros Hx. unfold IntegrationTestsGenerator.refuse_second.
  rewrite (member_not_nullish _ _ Hx). simpl.
  by rewrite truthy_module_type.
Qed.

Lemma refuse_second_throws (g : Generator) (x : value) (key : string) :
  nullish x = false →
  (IntegrationTestsGenerator.refuse_second g x key = Throw refused
   ↔ prop_of x "moduleType"
       = VStr IntegrationTestsGenerator.IntegrationTestsModuleType
     ∧ relativePath g ≠ VStr key).
Proof.
  intros Hx. rewrite (refuse_second_record _ _ _ Hx).
  rewrite <- is_string_true, <- is_string_false.
  destruct (is_string (prop_of x "moduleType") _),
           (is_string (relativePath g) key); simpl;
    (split; [intros H; by try discriminate H | intros [H1 H2]; congruence]).
Qed.

(** C2: without a parent context, a persisted record of type ["tests-it"]
    under a path other than the candidate's makes [default] throw the
    refusal; when no such record exists (the only ["tests-it"] record, if
    any, is the candidate's own) [default] ends normally, having composed
    the project generator.  The persisted entries are taken to be values
    other than [null] and [undefined]. *)
Theorem default_refuses_second_module (g : Generator) :
  Lodash.isEmpty (get (options g) "parent") = true →
  map_Forall (λ _ x, nullish x = false) (config g) →
  ((∃ key record, second_module g key record) →
   IntegrationTestsGenerator.default app_generator g = Throw refused)
  ∧ ((∀ key record, ¬ second_module g key record) →
     IntegrationTestsGenerator.default app_generator g
     = Normal
         (composeWith app_generator
            {[ "generateInto" := VStr (destinationRoot g);
               "showBuildOutput" := get (options g) "showBuildOutput" ]} g)).
Proof.
  intros Hroot Hrecords. unfold IntegrationTestsGenerator.default.
  rewrite Hroot. unfold Lodash.each. split.
  - intros (key & record & Hin & Htype & Hpath).
    rewrite (forEach_throw _ _ refused); [done| |].
    + intros key' x Hx. apply elem_of_map_to_list in Hx.
      rewrite (refuse_second_record _ _ _ (Hrecords _ _ Hx)).
      destruct (_ && _); auto.
    + exists key, record. split; [by apply elem_of_map_to_list|].
      apply refuse_second_throws; [by apply (Hrecords key)|done].
  - intros Hnone. rewrite forEach_normal; [done|].
    intros key x Hx. apply elem_of_map_to_list in Hx.
    pose proof (Hrecords _ _ Hx) as Hnn.
    rewrite (refuse_second_record _ _ _ Hnn).
    destruct (_ && _) eqn:Hcond; [|done].
    exfalso. apply (Hnone key x). split; [done|].
    apply (refuse_second_throws g x key Hnn).
    by rewrite (refuse_second_record _ _ _ Hnn), Hcond.
Qed.

(** C7: with a non-empty [parent] option, [default] does nothing at all: it
    cannot throw, whatever the persisted records are, and it composes no
    generator; [writing] composes none either. *)
Theorem child_default_does_nothing (g : Generator) :
  Lodash.isEmpty (get (options g) "parent") = false →
  IntegrationTestsGenerator.default app_generator g = Normal g
  ∧ ∀ outcome g', writing g = Normal (outcome, g') → composed g' = composed g.
Proof.
  intros Hchild. split.
  - unfold IntegrationTestsGenerator.default. by rewrite Hchild.
  - intros outcome g'. unfold IntegrationTestsGenerator.writing.
    destruct (member _ _) as [aemVersion|]; simpl; [|done].
    unfold Promise.then_, IntegrationTestsGenerator.on_client,
      IntegrationTestsGenerator.on_aem.
    destruct (_latestRelease _); simpl; [|by intros [= _ <-]..].
    destruct (get _ "package"); simpl; by intros [= _ <-].
Qed.

End IntegrationTestsFacts.

(* ================================================================== *)
(** ** The integration-tests generator: resolving the bag *)
(* ================================================================== *)

Section RegExpFacts.

(** [search] finds nothing exactly when no code unit matches. *)
Lemma search_None (p : ascii → bool) (s : string) :
  RegExp.search p s = None
  ↔ forallb (λ c, negb (p c)) (list_ascii_of_string s) = true.
Proof.
  induction s as [|c s IH]; simpl; [done|].
  destruct (p c); simpl; [done|].
  rewrite <- IH. destruct (RegExp.search p s); simpl; split; congruence.
Qed.

Lemma forallb_negb_negb {A : Type} (p : A → bool) (l : list A) :
  forallb (λ c, negb (negb (p c))) l = forallb p l.
Proof.
  induction l as [|c l IH]; [done|].
  cbn [forallb]. by rewrite negb_involutive, IH.
Qed.

(** On the RegExp object as the module creates it, [test] answers whether
    the string has a character that is neither a letter nor a period. *)
Lemma invalidPackageRegex_test_fresh (s : string) :
  (RegExp.test IntegrationTestsGenerator.invalidPackageRegex s).1
  = negb (only_letters_and_periods s).
Proof.
  unfold RegExp.test. simpl.
  pose proof (search_None
    (RegExp.matches IntegrationTestsGenerator.invalidPackageRegex) s) as Hs.
  simpl in Hs. unfold only_letters_and_periods.
  rewrite forallb_negb_negb in Hs.
  destruct (RegExp.search _ s) as [i|]; simpl.
  - destruct (forallb _ _); [|done]. by destruct Hs as [_ Hs]; specialize (Hs eq_refl).
  - by rewrite (proj1 Hs eq_refl).
Qed.

(** Lines 69-74 on a fresh RegExp object: a string package is kept when it is
    made of letters and periods, and removed otherwise. *)
Lemma initial_bag_fresh (g : Generator) (s : string) :
  options g !! "package" = Some (VStr s) →
  props (IntegrationTestsGenerator.initial_bag
           IntegrationTestsGenerator.invalidPackageRegex g).2 !! "package"
  = if only_letters_and_periods s then Some (VStr s) else None.
Proof.
  intros Hs. unfold IntegrationTestsGenerator.initial_bag.
  assert (Hbag : Lodash.defaults ∅
                   (Lodash.pick (options g)
                      IntegrationTestsGenerator.uniqueProperties)
                 !! "package" = Some (VStr s)).
  { rewrite defaults_empty, lookup_pick, Hs.
    by rewrite decide_True by (apply list_elem_of_here). }
  simpl. unfold get at 1. rewrite Hbag. simpl.
  destruct (String.eqb_spec s "") as [->|Hne]; simpl; [done|].
  unfold get. rewrite Hbag. simpl.
  pose proof (invalidPackageRegex_test_fresh s) as Htest.
  destruct (RegExp.test _ s) as [invalid re]. simpl in Htest. subst invalid.
  destruct (only_letters_and_periods s); simpl; [done|].
  by rewrite lookup_delete_eq.
Qed.

End RegExpFacts.

Section ResolutionFacts.

Variable _initializing : Generator → completion Generator.

Local Abbreviation initializing :=
  (IntegrationTestsGenerator.initializing _initializing).

(** Lines 82-84 leave a truthy [publish] whenever defaults are asked for. *)
Lemma publish_default_truthy (g : Generator) :
  truthy (get (options g) "defaults") = true →
  truthy (get (props (IntegrationTestsGenerator.publish_default g)) "publish")
  = true.
Proof.
  intros Hd. unfold IntegrationTestsGenerator.publish_default. rewrite Hd.
  simpl. rewrite get_insert. case_decide; [|done].
  unfold or_else. by destruct (truthy (get (props g) "publish")) eqn:Hp.
Qed.

(** Without the flag they change nothing. *)
Lemma publish_default_off (g : Generator) :
  truthy (get (options g) "defaults") = false →
  IntegrationTestsGenerator.publish_default g = g.
Proof.
  intros Hd. unfold IntegrationTestsGenerator.publish_default. by rewrite Hd.
Qed.

(** C10: when, after the mixin's part of the phase, the parent bag has a
    truthy [groupId] and [package] is unset, [initializing] ends normally
    with [package] equal to the parent's [groupId]. *)
Theorem package_taken_from_parent (re : RegExp.t) (g g1 : Generator)
    (parent : gmap string value) :
  _initializing (IntegrationTestsGenerator.initial_bag re g).2 = Normal g1 →
  get (props g1) "parent" = VObj parent →
  truthy (get parent "groupId") = true →
  truthy (get (props g1) "package") = false →
  ∃ g',
    initializing re g
    = Normal ((IntegrationTestsGenerator.initial_bag re g).1, g')
    ∧ get (props g') "package" = get parent "groupId".
Proof.
  intros Hmixin Hparent Hgroup Hpackage.
  unfold IntegrationTestsGenerator.initializing.
  destruct (IntegrationTestsGenerator.initial_bag re g) as [re' g0].
  simpl in *. rewrite Hmixin. simpl.
  unfold IntegrationTestsGenerator.package_from_parent.
  rewrite Hparent. simpl. rewrite Hgroup. eexists. split; [reflexivity|].
  unfold IntegrationTestsGenerator.publish_default. simpl.
  destruct (truthy (get (options g1) "defaults")); simpl;
    rewrite ?get_insert; repeat case_decide; try done.
  all: unfold or_else; by rewrite Hpackage.
Qed.

End ResolutionFacts.

Section DefaultsFacts.

Variable _initializing : Generator → completion Generator.

Lemma options_publish_default (g : Generator) :
  options (IntegrationTestsGenerator.publish_default g) = options g.
Proof.
  unfold IntegrationTestsGenerator.publish_default.
  by destruct (truthy (get (options g) "defaults")).
Qed.

(** Whatever the mixin does, a phase that ends with defaults switched on
    ends with a truthy [publish]: no supplied [false] survives. *)
Lemma initializing_publish_truthy (re re' : RegExp.t) (g g' : Generator) :
  IntegrationTestsGenerator.initializing _initializing re g = Normal (re', g') →
  truthy (get (options g') "defaults") = true →
  truthy (get (props g') "publish") = true.
Proof.
  unfold IntegrationTestsGenerator.initializing.
  destruct (IntegrationTestsGenerator.initial_bag re g) as [re0 g0].
  destruct (_initializing g0) as [g1|]; simpl; [|done].
  destruct (IntegrationTestsGenerator.package_from_parent g1) as [g2|];
    simpl; [|done].
  intros [= _ <-]. rewrite options_publish_default.
  apply publish_default_truthy.
Qed.

End DefaultsFacts.

(** C4, at the input that breaks it: the options say [publish: false] and
    [defaults: true]; after [initializing] the bag holds [publish: true]. *)
Theorem publish_false_overridden_under_defaults :
  get (options Scenario.no_publish) "publish" = VBool false
  ∧ get (options Scenario.no_publish) "defaults" = VBool true
  ∧ (λ bag, get bag "publish")
      <$> bag_after
            (IntegrationTestsGenerator.initializing
               Scenario.sample_initializing
               IntegrationTestsGenerator.invalidPackageRegex
               Scenario.no_publish)
    = Some (VBool true).
Proof. by vm_compute. Qed.

(** C5, at the input that breaks it: the same options, with the package
    ["com1"], are given to two instances one after the other.  The first
    call of lines 69-74 removes the package and leaves [lastIndex] at 4;
    the second call starts its search there and keeps the package. *)
Theorem invalid_package_kept_on_second_use :
  only_letters_and_periods "com1" = false
  ∧ props (IntegrationTestsGenerator.initial_bag
             IntegrationTestsGenerator.invalidPackageRegex
             Scenario.digit_package).2 !! "package" = None
  ∧ RegExp.lastIndex
      (IntegrationTestsGenerator.initial_bag
         IntegrationTestsGenerator.invalidPackageRegex
         Scenario.digit_package).1 = 4
  ∧ props (IntegrationTestsGenerator.initial_bag
             (IntegrationTestsGenerator.initial_bag
                IntegrationTestsGenerator.invalidPackageRegex
                Scenario.digit_package).1
             Scenario.digit_package).2 !! "package" = Some (VStr "com1").
Proof. by vm_compute. Qed.

Section WritingFacts.

Variable _listTemplates : string → list string.
Variable _apiCoordinates : value → value.
Variable path_sep : string.

(** The outcome of [writing] and everything it emits are decided by the
    testing-client release alone: the promise of the platform-API release
    is handed to [then] where a function is expected, and is ignored. *)
Lemma writing_ignores_api_release (release1 release2 : value → Promise.t)
    (g : Generator) :
  (∀ version,
     release1 (IntegrationTestsGenerator.testClientCoordinates version)
     = release2 (IntegrationTestsGenerator.testClientCoordinates version)) →
  IntegrationTestsGenerator.writing
    _listTemplates release1 _apiCoordinates path_sep g
  = IntegrationTestsGenerator.writing
      _listTemplates release2 _apiCoordinates path_sep g.
Proof.
  intros Hclient. unfold IntegrationTestsGenerator.writing.
  destruct (member _ _) as [version|]; simpl; [|done].
  unfold Promise.then_. rewrite Hclient.
  by destruct (release2 _).
Qed.

End WritingFacts.

(** C3, at the inputs that break it.  With a metadata service that fails for
    the platform-API artifact, [writing] is fulfilled and has emitted the
    templates, with [aem] undefined in the context.  With a service that
    answers both requests, [aem] is undefined all the same. *)
Theorem writing_emits_without_api_release :
  Scenario.release (Scenario.api_coordinates (VStr "cloud"))
  = Promise.Rejected (Error "metadata service unavailable")
  ∧ emitted
      (IntegrationTestsGenerator.writing
         Scenario.templates Scenario.release Scenario.api_coordinates "/"
         Scenario.ready)
    = Some (Promise.Fulfilled VUndefined,
            [(["pom.xml"; "src/main/java/AdminIT.java";
               "src/main/java/PublishIT.java"],
              VObj {[ "version" := VStr "1.2.0" ]}, VUndefined)])
  ∧ emitted
      (IntegrationTestsGenerator.writing
         Scenario.templates Scenario.release_all Scenario.api_coordinates "/"
         Scenario.ready)
    = Some (Promise.Fulfilled VUndefined,
            [(["pom.xml"; "src/main/java/AdminIT.java";
               "src/main/java/PublishIT.java"],
              VObj {[ "artifactId" := VStr "aem-cloud-testing-clients";
                      "version" := VStr "1.2.0" ]}, VUndefined)]).
Proof. by vm_compute. Qed.

(* ------------------------------------------------------------------ *)
(** *** The theorems above on sample inputs *)
(* ------------------------------------------------------------------ *)

Lemma files_with_publish_tier :
  truthy (get (props Scenario.ready) "publish") = true
  ∧ IntegrationTestsGenerator.files Scenario.templates Scenario.ready
    = ["pom.xml"; "src/main/java/AdminIT.java"; "src/main/java/PublishIT.java"].
Proof.
  split; [reflexivity|].
  exact (proj1 (proj2 (files_shared_then_publish
                         Scenario.templates Scenario.ready)) eq_refl).
Defined.

Lemma default_refuses_in_project :
  Lodash.isEmpty (get (options Scenario.standalone) "parent") = true
  ∧ map_Forall (λ _ x, nullish x = false) (config Scenario.standalone)
  ∧ IntegrationTestsGenerator.default "../app" Scenario.standalone
    = Throw (Error "Refusing to create a second Integration Testing module.").
Proof.
  assert (Hroot : Lodash.isEmpty (get (options Scenario.standalone) "parent")
                  = true) by reflexivity.
  assert (Hrecords : map_Forall (λ _ x, nullish x = false)
                                (config Scenario.standalone)).
  { apply map_Forall_to_list. vm_compute. repeat constructor. }
  split; [exact Hroot|]. split; [exact Hrecords|].
  apply (default_refuses_second_module "../app" Scenario.standalone
           Hroot Hrecords).
  exists "it", (VObj {[ "moduleType" := VStr "tests-it" ]}).
  split; [reflexivity|]. split; [reflexivity|discriminate].
Defined.

(** Configuring the module that is already recorded under ["it"] again. *)
Example default_accepts_same_path :
  ∃ g',
    IntegrationTestsGenerator.default "../app"
      (Scenario.instance ∅ Scenario.project "it") = Normal g'
    ∧ fst <$> composed g' = ["../app"].
Proof. eexists. split; [by vm_compute|reflexivity]. Qed.

Lemma child_default_in_project :
  Lodash.isEmpty (get (options Scenario.child) "parent") = false
  ∧ IntegrationTestsGenerator.default "../app" Scenario.child
    = Normal Scenario.child.
Proof.
  split; [reflexivity|].
  apply (child_default_does_nothing
           Scenario.templates Scenario.release Scenario.api_coordinates "/"
           "../app" Scenario.child).
  reflexivity.
Defined.

Lemma invalid_package_replaced_by_groupId :
  only_letters_and_periods "com123" = false
  ∧ options Scenario.invalid_package !! "package" = Some (VStr "com123")
  ∧ ∃ g',
      IntegrationTestsGenerator.initializing Scenario.sample_initializing
        IntegrationTestsGenerator.invalidPackageRegex Scenario.invalid_package
      = Normal
          ((IntegrationTestsGenerator.initial_bag
              IntegrationTestsGenerator.invalidPackageRegex
              Scenario.invalid_package).1, g')
      ∧ get (props g') "package" = VStr "com.example".
Proof.
  split; [reflexivity|]. split; [reflexivity|].
  assert (Hmixin :
    Scenario.sample_initializing
      (IntegrationTestsGenerator.initial_bag
         IntegrationTestsGenerator.invalidPackageRegex
         Scenario.invalid_package).2
    = Normal (set_props {[ "parent" := Scenario.parent_bag ]}
                        Scenario.invalid_package)) by (by vm_compute).
  exact (package_taken_from_parent Scenario.sample_initializing
           IntegrationTestsGenerator.invalidPackageRegex
           Scenario.invalid_package _
           {[ "groupId" := VStr "com.example"; "aemVersion" := VStr "cloud" ]}
           Hmixin eq_refl eq_refl eq_refl).
Defined.

(* ================================================================== *)
(** ** The project root: precedence of the sources *)
(* ================================================================== *)

Section PrecedenceFacts.

Implicit Types (o c pom : gmap string value) (k : string) (v : value).

Lemma first_defined_nested a b rest :
  first_defined (first_defined [a; b] :: rest) = first_defined (a :: b :: rest).
Proof. by destruct a, b. Qed.

Lemma first_defined_truthy v rest :
  truthy v = true → first_defined (v :: rest) = v.
Proof. by destruct v. Qed.

Lemma or_else_truthy a b : truthy b = true → truthy (or_else a b) = true.
Proof. unfold or_else. by destruct (truthy a) eqn:Ha. Qed.

Lemma unique_cases k :
  k ∈ AEMGenerator.unique ↔ k = "groupId" ∨ k = "version" ∨ k = "aemVersion".
Proof.
  unfold AEMGenerator.unique. rewrite !elem_of_cons, elem_of_nil. tauto.
Qed.

Lemma unique_is_not_pomProperties k :
  k ∈ AEMGenerator.unique → k ∉ ["pomProperties"].
Proof.
  rewrite unique_cases, list_elem_of_singleton.
  intros [-> | [-> | ->]]; discriminate.
Qed.

Lemma platform_guard pom :
  truthy (get pom "pomProperties")
  && truthy (prop_of (get pom "pomProperties") "aem.version")
  = truthy (aem_version pom).
Proof.
  unfold aem_version.
  destruct (get pom "pomProperties"); simpl; by rewrite ?andb_false_r.
Qed.

(** Lines 72-80, read back for one of the unique properties. *)
Lemma get_populate o c pom k :
  k ∈ AEMGenerator.unique →
  get (AEMGenerator.populate o c pom) k
  = if String.eqb k "aemVersion" && truthy (aem_version pom)
    then or_else (first_defined [get o k; get c k; get pom k])
                 (aem_version pom)
    else first_defined [get o k; get c k; get pom k].
Proof.
  intros Hk. unfold AEMGenerator.populate. rewrite platform_guard.
  assert (Hbase :
    get (Lodash.defaults
           (Lodash.defaults
              (Lodash.defaults ∅ (Lodash.pick o AEMGenerator.unique))
              (Lodash.pick c AEMGenerator.unique))
           (Lodash.omit pom ["pomProperties"])) k
    = first_defined [get o k; get c k; get pom k]).
  { rewrite !get_defaults, !get_pick, get_omit, get_empty.
    rewrite !decide_True by done.
    rewrite decide_False by by apply unique_is_not_pomProperties.
    by destruct (get o k), (get c k). }
  fold (aem_version pom).
  destruct (truthy (aem_version pom)); rewrite ?andb_true_r, ?andb_false_r;
    [|exact Hbase].
  rewrite get_insert.
  destruct (String.eqb_spec k "aemVersion") as [->|Hne].
  - rewrite decide_True by done. by rewrite Hbase.
  - by rewrite decide_False by congruence.
Qed.

(** ... and for any other property: only the descriptor is consulted. *)
Lemma get_populate_other o c pom k :
  k ∉ AEMGenerator.unique → k ≠ "pomProperties" →
  get (AEMGenerator.populate o c pom) k = get pom k.
Proof.
  intros Hk Hpp. unfold AEMGenerator.populate.
  assert (Hbase :
    get (Lodash.defaults
           (Lodash.defaults
              (Lodash.defaults ∅ (Lodash.pick o AEMGenerator.unique))
              (Lodash.pick c AEMGenerator.unique))
           (Lodash.omit pom ["pomProperties"])) k
    = get pom k).
  { rewrite !get_defaults, !get_pick, get_omit, get_empty.
    rewrite !decide_False by done.
    rewrite decide_False by by rewrite list_elem_of_singleton.
    by destruct (get pom k). }
  destruct (_ && _); [|exact Hbase].
  rewrite get_insert, decide_False; [exact Hbase|].
  intros <-. apply Hk, unique_cases. auto.
Qed.

Lemma get_fallback_other k :
  k ∉ AEMGenerator.unique → get AEMGenerator.fallback k = VUndefined.
Proof.
  rewrite unique_cases. intros Hk. unfold get, AEMGenerator.fallback.
  rewrite lookup_insert_ne by (intros <-; auto).
  by rewrite lookup_singleton_ne by (intros <-; auto).
Qed.

Lemma get_without_generateInto o k :
  k ≠ "generateInto" → get (delete "generateInto" o) k = get o k.
Proof. intros Hk. by rewrite get_delete, decide_False. Qed.

End PrecedenceFacts.

Section RootFacts.

Variable path_relative : string → string → string.
Variable path_join : string → string → string.
Variable readPom : string → gmap string value.
Variable GeneratorCommons_options : list string.
Variable GeneratorCommons_props : Generator → gmap string value.
Variable require_resolve : value → completion string.

Local Abbreviation initializing :=
  (AEMGenerator.initializing path_relative path_join readPom
     GeneratorCommons_options GeneratorCommons_props require_resolve).
Local Abbreviation unique_props := (AEMGenerator.unique_props path_join readPom).
Local Abbreviation dest := (AEMGenerator.dest path_relative).

(** Composing the modules touches neither bag. *)
Lemma compose_modules_frame entries moduleOptions (g g' : Generator) :
  AEMGenerator.compose_modules require_resolve entries moduleOptions g
  = Normal g' →
  options g' = options g ∧ config g' = config g ∧ props g' = props g.
Proof.
  revert g. induction entries as [|m rest IH]; intros g; simpl.
  - by intros [= <-].
  - destruct (require_resolve m) as [p|]; simpl; [|done].
    intros Hrest. by apply IH in Hrest.
Qed.

(** The bag that [initializing] leaves, in terms of the state in which the
    shared properties are read. *)
Lemma initializing_props (g g' : Generator) (d : string) :
  dest g = VStr d →
  initializing g = Normal g' →
  options g' = delete "generateInto" (options g)
  ∧ config g' = config g
  ∧ props g'
    = let filled :=
        Lodash.defaults (props (unique_props g d))
                        (GeneratorCommons_props (unique_props g d)) in
      if truthy (get (options g) "defaults")
      then Lodash.defaults filled AEMGenerator.fallback
      else filled.
Proof.
  intros Hdest. unfold AEMGenerator.initializing. rewrite Hdest.
  intros Hcompose. apply compose_modules_frame in Hcompose as (Ho & Hc & Hp).
  rewrite Ho, Hc, Hp. simpl.
  rewrite get_without_generateInto by done.
  by destruct (truthy (get (options g) "defaults")).
Qed.

(** X18: what the root's [initializing] resolves, as the code behaves.  For
    ["groupId"] and ["version"] it is the first value other than [undefined]
    among options, persisted configuration, descriptor, shared properties
    and - only with the defaults flag - the fallback.  For ["aemVersion"]
    take the first value other than [undefined] among options, persisted
    configuration and descriptor: with a truthy descriptor platform
    ([pomProperties['aem.version']]) the result is that value if it is
    truthy and the platform otherwise; without one, the result is the first
    value other than [undefined] among that value, the shared properties and
    the fallback under the flag.  For every other property except
    ["pomProperties"] the options and the configuration are not read: the
    result is the first value other than [undefined] among descriptor and
    shared properties. *)
Theorem root_precedence (g g' : Generator) (d : string) :
  dest g = VStr d →
  initializing g = Normal g' →
  (∀ k, k ∈ AEMGenerator.unique →
     get (props g') k
     = precedence k (options g) (config g)
         (readPom (path_join (destinationRoot g) d))
         (GeneratorCommons_props (unique_props g d))
         (truthy (get (options g) "defaults")))
  ∧ (∀ k, k ∉ AEMGenerator.unique → k ≠ "pomProperties" →
       get (props g') k
       = first_defined
           [get (readPom (path_join (destinationRoot g) d)) k;
            get (GeneratorCommons_props (unique_props g d)) k]).
Proof.
  intros Hdest Hinit.
  destruct (initializing_props g g' d Hdest Hinit) as (_ & _ & ->).
  set (shared := GeneratorCommons_props (unique_props g d)).
  set (pom := readPom (path_join (destinationRoot g) d)).
  assert (Hprops : props (unique_props g d)
                   = AEMGenerator.populate (delete "generateInto" (options g))
                                           (config g) pom) by done.
  split.
  - intros k Hk.
    assert (Hgi : k ≠ "generateInto").
    { apply unique_cases in Hk as [-> | [-> | ->]]; discriminate. }
    assert (Hfilled :
      get (Lodash.defaults (props (unique_props g d)) shared) k
      = if String.eqb k "aemVersion" && truthy (aem_version pom)
        then or_else (first_defined [get (options g) k; get (config g) k;
                                     get pom k]) (aem_version pom)
        else first_defined [get (options g) k; get (config g) k; get pom k;
                            get shared k]).
    { rewrite get_defaults, Hprops, get_populate by done.
      rewrite get_without_generateInto by done.
      destruct (String.eqb k "aemVersion" && truthy (aem_version pom))
        eqn:Hplatform.
      - apply first_defined_truthy, or_else_truthy.
        by apply andb_true_iff in Hplatform as [_ ?].
      - by destruct (get (options g) k), (get (config g) k), (get pom k). }
    unfold precedence. cbv zeta.
    destruct (truthy (get (options g) "defaults")).
    + rewrite get_defaults, Hfilled.
      destruct (String.eqb k "aemVersion" && truthy (aem_version pom))
        eqn:Hplatform.
      * apply first_defined_truthy, or_else_truthy.
        by apply andb_true_iff in Hplatform as [_ ?].
      * by destruct (get (options g) k), (get (config g) k), (get pom k),
                    (get shared k).
    + rewrite Hfilled.
      destruct (String.eqb k "aemVersion" && truthy (aem_version pom));
        [done|].
      by destruct (get (options g) k), (get (config g) k), (get pom k),
                  (get shared k).
  - intros k Hk Hpp.
    assert (Hfilled :
      get (Lodash.defaults (props (unique_props g d)) shared) k
      = first_defined [get pom k; get shared k]).
    { by rewrite get_defaults, Hprops, get_populate_other. }
    cbv zeta. destruct (truthy (get (options g) "defaults")); [|done].
    rewrite get_defaults, Hfilled, get_fallback_other by done.
    by destruct (get pom k), (get shared k).
Qed.

(** Whether the modules can all be resolved does not depend on the
    generator. *)
Lemma compose_modules_succeeds entries mo1 mo2 (g1 g1' g2 : Generator) :
  AEMGenerator.compose_modules require_resolve entries mo1 g1 = Normal g1' →
  ∃ g2', AEMGenerator.compose_modules require_resolve entries mo2 g2
         = Normal g2'.
Proof.
  revert g1 g2. induction entries as [|m rest IH]; intros g1 g2; simpl.
  - intros _. by eexists.
  - destruct (require_resolve m) as [p|]; simpl; [|done].
    intros Hrest. by eapply IH.
Qed.

(** C8, as the code has it.  Take two runs of the root's resolution whose
    sources agree: the same options apart from [generateInto], the same
    project directory, configuration and roots, with a shared-properties
    helper that reads only those.  If the first run ends normally, it has
    left the configuration alone and removed exactly [generateInto] from the
    options, and the second run ends normally with the same resolved bag,
    options and configuration - whatever bag or calls the second generator
    started with. *)
Theorem root_resolution_repeatable (ga gb ga' : Generator) (d : string) :
  reads_generator_state GeneratorCommons_props →
  dest ga = VStr d →
  dest gb = VStr d →
  delete "generateInto" (options ga) = delete "generateInto" (options gb) →
  config ga = config gb →
  destinationRoot ga = destinationRoot gb →
  contextRoot ga = contextRoot gb →
  initializing ga = Normal ga' →
  options ga' = delete "generateInto" (options ga)
  ∧ config ga' = config ga
  ∧ ∃ gb',
      initializing gb = Normal gb'
      ∧ props gb' = props ga'
      ∧ options gb' = options ga'
      ∧ config gb' = config ga'.
Proof.
  intros Hshared Hda Hdb Ho Hc Hdr Hcr Ha.
  destruct (initializing_props ga ga' d Hda Ha) as (Hoa & Hca & Hpa).
  split; [done|]. split; [done|].
  assert (Hexists : ∃ gb', initializing gb = Normal gb').
  { revert Ha. unfold AEMGenerator.initializing. rewrite Hda, Hdb.
    cbv zeta. intros Ha.
    match type of Ha with
    | AEMGenerator.compose_modules _ ?ea _ _ = _ =>
        match goal with
        | |- ∃ _, AEMGenerator.compose_modules _ ?eb _ _ = _ =>
            assert (Hentries : eb = ea)
        end
    end.
    { assert (Hif : ∀ (b : bool) p (g : Generator),
                options (if b then set_props p g else g) = options g)
        by (by intros []).
      rewrite !Hif. unfold AEMGenerator.unique_props. simpl. by rewrite Ho. }
    rewrite Hentries. eapply compose_modules_succeeds. exact Ha. }
  destruct Hexists as [gb' Hb]. exists gb'. split; [done|].
  destruct (initializing_props gb gb' d Hdb Hb) as (Hob & Hcb & Hpb).
  assert (Hpopulated : props (unique_props gb d) = props (unique_props ga d)).
  { unfold AEMGenerator.unique_props. simpl. by rewrite Ho, Hc, Hdr. }
  assert (Hread : GeneratorCommons_props (unique_props gb d)
                  = GeneratorCommons_props (unique_props ga d)).
  { apply Hshared; [|done..]. simpl. by rewrite Ho. }
  assert (Hflag : get (options gb) "defaults" = get (options ga) "defaults").
  { rewrite <- (get_without_generateInto (options gb)) by done.
    rewrite <- (get_without_generateInto (options ga)) by done.
    by rewrite Ho. }
  split; [|split].
  - by rewrite Hpb, Hpa, Hpopulated, Hread, Hflag.
  - by rewrite Hob, Hoa, Ho.
  - by rewrite Hcb, Hca, Hc.
Qed.

End RootFacts.

(* ------------------------------------------------------------------ *)
(** *** The root on a sample project *)
(* ------------------------------------------------------------------ *)

Lemma root_first_run :
  AEMGenerator.initializing Scenario.path_relative Scenario.path_join
    Scenario.readPom Scenario.common_options Scenario.shared_props
    Scenario.require_resolve Scenario.root
  = Normal Scenario.root_again.
Proof. by vm_compute. Qed.

(** C1, at the input that breaks it.  The options define [artifactId], yet
    the resolved bag holds the descriptor's value for it; and the options
    supply [aemVersion] (as the empty string), yet the descriptor's target
    platform is adopted: line 79 joins the two with [||].  Both go against
    the order the method announces in lines 61-64 (CLI options, Yeoman
    config, POM values). *)
Lemma root_precedence_as_stated_fails :
  options Scenario.root !! "artifactId" = Some (VStr "cli-artifact")
  ∧ Scenario.readPom "/work/site" !! "artifactId" = Some (VStr "pom-artifact")
  ∧ (λ bag, bag !! "artifactId")
      <$> after props
            (AEMGenerator.initializing Scenario.path_relative
               Scenario.path_join Scenario.readPom Scenario.common_options
               Scenario.shared_props Scenario.require_resolve Scenario.root)
    = Some (Some (VStr "pom-artifact"))
  ∧ options Scenario.root !! "aemVersion" = Some (VStr "")
  ∧ (λ bag, bag !! "aemVersion")
      <$> after props
            (AEMGenerator.initializing Scenario.path_relative
               Scenario.path_join Scenario.readPom Scenario.common_options
               Scenario.shared_props Scenario.require_resolve Scenario.root)
    = Some (Some (VStr "6.5.7")).
Proof. by vm_compute. Qed.

(** The same [||] also drops a truthy value of the persisted configuration
    that stands behind an empty option. *)
Example root_drops_configured_platform :
  config Scenario.root_configured_platform !! "aemVersion" = Some (VStr "6.5")
  ∧ (λ bag, bag !! "aemVersion")
      <$> after props
            (AEMGenerator.initializing Scenario.path_relative
               Scenario.path_join Scenario.readPom Scenario.common_options
               Scenario.shared_props Scenario.require_resolve
               Scenario.root_configured_platform)
    = Some (Some (VStr "6.5.7")).
Proof. by vm_compute. Qed.

Lemma root_precedence_on_sample :
  AEMGenerator.dest Scenario.path_relative Scenario.root = VStr "site"
  ∧ get (props Scenario.root_again) "version" = VStr "2.0.0"
  ∧ get (props Scenario.root_again) "groupId" = VStr "com.config".
Proof.
  assert (Hdest : AEMGenerator.dest Scenario.path_relative Scenario.root
                  = VStr "site") by reflexivity.
  pose proof (proj1 (root_precedence Scenario.path_relative Scenario.path_join
                       Scenario.readPom Scenario.common_options
                       Scenario.shared_props Scenario.require_resolve
                       Scenario.root Scenario.root_again "site"
                       Hdest root_first_run)) as Hunique.
  split; [exact Hdest|]. split.
  - exact (Hunique "version" (proj2 (unique_cases _) (or_intror (or_introl eq_refl)))).
  - exact (Hunique "groupId" (proj2 (unique_cases _) (or_introl eq_refl))).
Defined.

(** C8 does not hold as stated: resolution deletes [generateInto] from the
    options bag it was given. *)
Lemma root_resolution_mutates_options :
  options Scenario.root !! "generateInto" = Some (VStr "site")
  ∧ (λ o, o !! "generateInto")
      <$> after options
            (AEMGenerator.initializing Scenario.path_relative
               Scenario.path_join Scenario.readPom Scenario.common_options
               Scenario.shared_props Scenario.require_resolve Scenario.root)
    = Some None.
Proof. by vm_compute. Qed.

Lemma shared_props_reads_generator_state :
  reads_generator_state Scenario.shared_props.
Proof.
  intros x y Ho _ _ _ _. unfold Scenario.shared_props. by rewrite Ho.
Defined.

Lemma root_second_run_agrees :
  AEMGenerator.dest Scenario.path_relative Scenario.root_again = VStr "site"
  ∧ ∃ g'',
      AEMGenerator.initializing Scenario.path_relative Scenario.path_join
        Scenario.readPom Scenario.common_options Scenario.shared_props
        Scenario.require_resolve Scenario.root_again
      = Normal g''
      ∧ props g'' = props Scenario.root_again
      ∧ options g'' = options Scenario.root_again
      ∧ config g'' = config Scenario.root_again.
Proof.
  assert (Hda : AEMGenerator.dest Scenario.path_relative Scenario.root
                = VStr "site") by reflexivity.
  assert (Hdb : AEMGenerator.dest Scenario.path_relative Scenario.root_again
                = VStr "site") by (by vm_compute).
  assert (Ho : delete "generateInto" (options Scenario.root)
               = delete "generateInto" (options Scenario.root_again))
    by (by vm_compute).
  assert (Hc : config Scenario.root = config Scenario.root_again)
    by (by vm_compute).
  assert (Hdr : destinationRoot Scenario.root
                = destinationRoot Scenario.root_again) by (by vm_compute).
  assert (Hcr : contextRoot Scenario.root = contextRoot Scenario.root_again)
    by (by vm_compute).
  split; [exact Hdb|].
  exact (proj2 (proj2 (root_resolution_repeatable
           Scenario.path_relative Scenario.path_join Scenario.readPom
           Scenario.common_options Scenario.shared_props
           Scenario.require_resolve
           Scenario.root Scenario.root_again Scenario.root_again "site"
           shared_props_reads_generator_state Hda Hdb Ho Hc Hdr Hcr
           root_first_run))).
Defined.

(* ================================================================== *)
(** ** Further properties of the project root *)
(* ================================================================== *)

Section SplitFacts.

Lemma split_not_nil (sep : ascii) (s : string) : split sep s ≠ [].
Proof.
  destruct s as [|c s]; simpl; [done|].
  destruct (Ascii.eqb c sep); [done|]. by destruct (split sep s).
Qed.

Lemma concat_cons_char (sep : string) (c : ascii) (piece : string)
    (pieces : list string) :
  String.concat sep (String c piece :: pieces)
  = String c (String.concat sep (piece :: pieces)).
Proof. by destruct pieces. Qed.

(** The pieces joined with the separator give the string back, no piece
    contains the separator, and there is one piece more than there are
    separators in the string. *)
Lemma split_spec (sep : ascii) (s : string) :
  String.concat (String sep EmptyString) (split sep s) = s
  ∧ Forall (λ piece, occurs sep piece = false) (split sep s)
  ∧ length (split sep s) = S (count_matches (λ c, Ascii.eqb c sep) s).
Proof.
  induction s as [|c s (IHjoin & IHfree & IHlen)]; simpl.
  { repeat split; by repeat constructor. }
  destruct (Ascii.eqb c sep) eqn:Hc.
  - apply Ascii.eqb_eq in Hc as ->. repeat split.
    + pose proof (split_not_nil sep s) as Hne.
      destruct (split sep s) as [|piece pieces]; [done|].
      simpl in *. by rewrite IHjoin.
    + by constructor.
    + simpl. by rewrite IHlen.
  - pose proof (split_not_nil sep s) as Hne.
    destruct (split sep s) as [|piece pieces]; [done|].
    repeat split.
    + by rewrite concat_cons_char, IHjoin.
    + inversion IHfree as [|?? Hpiece Hpieces]; subst.
      constructor; [|done]. simpl. by rewrite Hc, Hpiece.
    + done.
Qed.

End SplitFacts.

(** X1: the [modules] option is parsed into an array of strings that, joined
    with commas, give the argument back; no module name contains a comma,
    and there is one name more than there are commas - so the empty argument
    names one module, the empty string. *)
Theorem modules_type_round_trip (arg : string) :
  ∃ names : list string,
    AEMGenerator.modules_type arg = VArr (VStr <$> names)
    ∧ String.concat "," names = arg
    ∧ Forall (λ name, occurs "," name = false) names
    ∧ length names = S (count_matches (λ c, Ascii.eqb c ",") arg).
Proof.
  exists (split "," arg). split; [done|]. apply split_spec.
Qed.

Section CompositionFacts.

Variable path_relative : string → string → string.
Variable path_join : string → string → string.
Variable readPom : string → gmap string value.
Variable GeneratorCommons_options : list string.
Variable GeneratorCommons_props : Generator → gmap string value.
Variable require_resolve : value → completion string.

Local Abbreviation initializing :=
  (AEMGenerator.initializing path_relative path_join readPom
     GeneratorCommons_options GeneratorCommons_props require_resolve).
Local Abbreviation unique_props := (AEMGenerator.unique_props path_join readPom).
Local Abbreviation dest := (AEMGenerator.dest path_relative).

(** The loop of lines 96-100 composes one generator per entry, in order, all
    with the same options. *)
Lemma compose_modules_calls entries moduleOptions (g g' : Generator) :
  AEMGenerator.compose_modules require_resolve entries moduleOptions g
  = Normal g' →
  ∃ paths,
    Forall2 (λ m p, require_resolve m = Normal p) entries paths
    ∧ composed g' = composed g ++ ((λ p, (p, moduleOptions)) <$> paths).
Proof.
  revert g. induction entries as [|m rest IH]; intros g; simpl.
  - intros [= <-]. exists []. split; [constructor|by rewrite app_nil_r].
  - destruct (require_resolve m) as [p|] eqn:Hm; simpl; [|done].
    intros Hrest. apply IH in Hrest as (paths & Hpaths & Hcomposed).
    exists (p :: paths). split; [by constructor|].
    rewrite Hcomposed. simpl. by rewrite <- app_assoc.
Qed.


Lemma initializing_normal_dest (g g' : Generator) :
  initializing g = Normal g' → ∃ d, dest g = VStr d.
Proof.
  unfold AEMGenerator.initializing.
  destruct (dest g) as [| | |d| |]; try done. by exists d.
Qed.

(** X2: when the root's [initializing] ends normally it has composed one
    generator per entry of the [modules] option, in the order of the
    entries, each under the path [require.resolve] gives for it, and each
    with the same options: the common options picked from the resolved bag
    and, under [parent], the resolved bag itself. *)
Theorem root_composes_every_module (g g' : Generator) :
  initializing g = Normal g' →
  ∃ paths,
    Forall2 (λ m p, require_resolve m = Normal p)
            (AEMGenerator.module_entries (get (options g) "modules")) paths
    ∧ composed g'
      = composed g
        ++ ((λ p, (p, <["parent" := VObj (props g')]>
                        (Lodash.pick (props g') GeneratorCommons_options)))
              <$> paths).
Proof.
  unfold AEMGenerator.initializing.
  destruct (dest g) as [| | |d| |] eqn:Hdest; try done.
  cbv zeta. intros Hcompose.
  destruct (compose_modules_frame _ _ _ _ _ Hcompose) as (_ & _ & Hprops).
  apply compose_modules_calls in Hcompose as (paths & Hpaths & Hcomposed).
  exists paths. rewrite Hprops, Hcomposed. clear Hprops Hcomposed.
  assert (Hif : ∀ (b : bool) p (x : Generator),
            options (if b then set_props p x else x) = options x
            ∧ composed (if b then set_props p x else x) = composed x)
    by (by intros []).
  revert Hpaths.
  rewrite (proj1 (Hif _ _ _)), (proj2 (Hif _ _ _)).
  unfold AEMGenerator.unique_props, Lodash.merge_fresh. simpl.
  rewrite get_without_generateInto by done. done.
Qed.


(** X4: with the defaults flag, a root that ends normally has left neither
    [version] nor [aemVersion] undefined. *)
Theorem root_defaults_fill_version_and_platform (g g' : Generator) :
  initializing g = Normal g' →
  truthy (get (options g) "defaults") = true →
  get (props g') "version" ≠ VUndefined
  ∧ get (props g') "aemVersion" ≠ VUndefined.
Proof.
  intros Hinit Hflag.
  destruct (initializing_normal_dest g g' Hinit) as [d Hd].
  destruct (initializing_props _ _ _ _ _ _ g g' d Hd Hinit) as (_ & _ & ->).
  cbv zeta. rewrite Hflag, !get_defaults.
  split.
  - by destruct (first_defined [get _ "version"; _]).
  - by destruct (first_defined [get _ "aemVersion"; _]).
Qed.

End CompositionFacts.

(* ================================================================== *)
(** ** Further properties of the integration-tests generator *)
(* ================================================================== *)

Section RegExpStateFacts.

Local Abbreviation invalid :=
  (RegExp.matches IntegrationTestsGenerator.invalidPackageRegex).

Lemma skip_empty (n : nat) : RegExp.skip n EmptyString = EmptyString.
Proof. by destruct n. Qed.

Lemma skip_skip (a b : nat) (s : string) :
  RegExp.skip a (RegExp.skip b s) = RegExp.skip (b + a) s.
Proof.
  revert s. induction b as [|b IH]; intros s; [done|].
  destruct s as [|c s]; simpl; [apply skip_empty|apply IH].
Qed.

Lemma skip_all (n : nat) (s : string) :
  String.length s ≤ n → RegExp.skip n s = EmptyString.
Proof.
  revert s. induction n as [|n IH]; intros [|c s]; simpl; try done; [lia|].
  intros Hlen. apply IH. lia.
Qed.

Lemma forallb_skip (f : ascii → bool) (n : nat) (s : string) :
  forallb f (list_ascii_of_string s) = true →
  forallb f (list_ascii_of_string (RegExp.skip n s)) = true.
Proof.
  revert s. induction n as [|n IH]; intros [|c s]; simpl; try done.
  intros [_ Hs]%andb_true_iff. by apply IH.
Qed.

Lemma search_None_count (p : ascii → bool) (s : string) :
  count_matches p s = 0 → RegExp.search p s = None.
Proof.
  induction s as [|c s IH]; simpl; [done|].
  destruct (p c); simpl; [done|]. intros Hs. by rewrite IH.
Qed.

Lemma search_Some_count (p : ascii → bool) (s : string) (j : nat) :
  RegExp.search p s = Some j →
  count_matches p s = S (count_matches p (RegExp.skip (S j) s)).
Proof.
  revert j. induction s as [|c s IH]; intros j; simpl; [done|].
  destruct (p c); simpl.
  - by intros [= <-].
  - destruct (RegExp.search p s) as [j'|]; simpl; [|done].
    intros [= <-]. by apply IH.
Qed.

Lemma search_count_pos (p : ascii → bool) (s : string) (m : nat) :
  count_matches p s = S m → ∃ j, RegExp.search p s = Some j.
Proof.
  induction s as [|c s IH]; simpl; [done|].
  destruct (p c); simpl; [by eexists|].
  intros Hs. destruct (IH Hs) as [j ->]. by eexists.
Qed.

(** A string of letters and periods is never reported, whatever state the
    object is in, and the call leaves the object as new. *)
Lemma test_valid (n : nat) (s : string) :
  only_letters_and_periods s = true →
  RegExp.test (invalidPackageRegex_at n) s
  = (false, IntegrationTestsGenerator.invalidPackageRegex).
Proof.
  intros Hs. unfold RegExp.test. cbn [RegExp.global invalidPackageRegex_at].
  assert (Hnone : RegExp.search (RegExp.matches (invalidPackageRegex_at n))
                    (RegExp.skip n s) = None).
  { apply search_None. cbn [RegExp.matches invalidPackageRegex_at
      IntegrationTestsGenerator.invalidPackageRegex].
    rewrite forallb_negb_negb. by apply forallb_skip. }
  cbn [RegExp.lastIndex invalidPackageRegex_at]. by rewrite Hnone.
Qed.

Lemma repeat_test_from (s : string) (m i : nat) :
  count_matches invalid (RegExp.skip i s) = m →
  repeat_test (S m) (invalidPackageRegex_at i) s
  = (replicate m true ++ [false],
     IntegrationTestsGenerator.invalidPackageRegex).
Proof.
  revert i. induction m as [|m IH]; intros i Hcount.
  - cbn [repeat_test]. unfold RegExp.test.
    cbn [RegExp.global RegExp.lastIndex RegExp.matches invalidPackageRegex_at].
    by rewrite (search_None_count _ _ Hcount).
  - destruct (search_count_pos _ _ _ Hcount) as [j Hj].
    pose proof (search_Some_count _ _ _ Hj) as Hrest.
    rewrite Hcount, skip_skip in Hrest. injection Hrest as Hrest.
    specialize (IH (i + S j) (eq_sym Hrest)).
    change (repeat_test (S (S m)) (invalidPackageRegex_at i) s)
      with (let '(answer, re) := RegExp.test (invalidPackageRegex_at i) s in
            let '(answers, re) := repeat_test (S m) re s in
            (answer :: answers, re)).
    unfold RegExp.test at 1.
    cbn [RegExp.global RegExp.lastIndex RegExp.matches invalidPackageRegex_at].
    rewrite Hj.
    replace (i + j + 1) with (i + S j) by lia.
    change {| RegExp.matches := _; RegExp.global := true;
              RegExp.lastIndex := i + S j |}
      with (invalidPackageRegex_at (i + S j)).
    by rewrite IH.
Qed.

(** X5: a package made of letters and periods is kept by lines 69-74 in
    every state the shared RegExp object can be in; and unless the package
    is empty (it is then not tested) the object is as new afterwards. *)
Theorem valid_package_kept_in_any_state (n : nat) (g : Generator)
    (s : string) :
  options g !! "package" = Some (VStr s) →
  only_letters_and_periods s = true →
  props (IntegrationTestsGenerator.initial_bag (invalidPackageRegex_at n) g).2
    !! "package" = Some (VStr s)
  ∧ (s ≠ "" →
     (IntegrationTestsGenerator.initial_bag (invalidPackageRegex_at n) g).1
     = IntegrationTestsGenerator.invalidPackageRegex).
Proof.
  intros Hs Hvalid. unfold IntegrationTestsGenerator.initial_bag.
  assert (Hbag : Lodash.defaults ∅
                   (Lodash.pick (options g)
                      IntegrationTestsGenerator.uniqueProperties)
                 !! "package" = Some (VStr s)).
  { rewrite defaults_empty, lookup_pick, Hs.
    by rewrite decide_True by (apply list_elem_of_here). }
  assert (Hget : get (Lodash.defaults ∅
                        (Lodash.pick (options g)
                           IntegrationTestsGenerator.uniqueProperties))
                     "package" = VStr s) by (unfold get; by rewrite Hbag).
  cbn [props set_props]. rewrite !Hget. cbn [truthy toString].
  destruct (String.eqb_spec s "") as [->|Hne]; cbn [negb].
  - cbn [props set_props fst snd]. by rewrite Hbag.
  - rewrite (test_valid n s Hvalid). cbn [props set_props fst snd].
    by rewrite Hbag.
Qed.

(** X6: [invalidPackageRegex.test] called again and again on one string,
    starting with the object as new, answers [true] once for every character
    of the string that is neither a letter nor a period, then [false], and
    the object is as new again. *)
Theorem repeated_test_wears_off (s : string) :
  repeat_test (S (count_matches invalid s))
              IntegrationTestsGenerator.invalidPackageRegex s
  = (replicate (count_matches invalid s) true ++ [false],
     IntegrationTestsGenerator.invalidPackageRegex).
Proof. by apply (repeat_test_from s _ 0). Qed.

(** X7: on the object as new, the validator of the package question accepts
    exactly the non-empty strings of letters and periods, and tells an
    empty answer from a malformed one. *)
Theorem validate_fresh (s : string) :
  (IntegrationTestsGenerator.validate
     IntegrationTestsGenerator.invalidPackageRegex (VStr s)).1
  = if String.eqb s "" then VStr "Package must be provided."
    else if only_letters_and_periods s then VBool true
    else VStr "Package must only contain letters or periods (.).".
Proof.
  unfold IntegrationTestsGenerator.validate.
  cbn [truthy has_length_zero toString].
  destruct (String.eqb s ""); cbn [negb orb]; [done|].
  pose proof (invalidPackageRegex_test_fresh s) as Htest.
  destruct (RegExp.test _ s) as [answer re]. cbn [fst] in *. subst answer.
  by destruct (only_letters_and_periods s).
Qed.

(** X8: when the object's [lastIndex] is at or beyond the end of the answer
    - as an earlier successful [test] on a longer string leaves it - the
    validator accepts every non-empty answer, and the object is as new
    afterwards. *)
Theorem validate_beyond_lastIndex (n : nat) (s : string) :
  s ≠ "" →
  String.length s ≤ n →
  IntegrationTestsGenerator.validate (invalidPackageRegex_at n) (VStr s)
  = (VBool true, IntegrationTestsGenerator.invalidPackageRegex).
Proof.
  intros Hne Hlen. unfold IntegrationTestsGenerator.validate.
  cbn [truthy has_length_zero toString].
  destruct (String.eqb_spec s "") as [->|_]; [done|]. cbn [negb orb].
  unfold RegExp.test.
  cbn [RegExp.global RegExp.lastIndex RegExp.matches invalidPackageRegex_at].
  by rewrite (skip_all n s Hlen).
Qed.

End RegExpStateFacts.

Section PhaseFacts.

Variable _initializing : Generator → completion Generator.

Local Abbreviation initializing :=
  (IntegrationTestsGenerator.initializing _initializing).



Lemma get_publish_default (g : Generator) (k : string) :
  k ≠ "publish" →
  get (props (IntegrationTestsGenerator.publish_default g)) k
  = get (props g) k.
Proof.
  intros Hk. unfold IntegrationTestsGenerator.publish_default.
  destruct (truthy _); [|done].
  cbn [props set_props]. by rewrite get_insert, decide_False.
Qed.

Lemma package_from_parent_normal (g g2 : Generator) :
  IntegrationTestsGenerator.package_from_parent g = Normal g2 →
  options g2 = options g
  ∧ get (props g2) "parent" = get (props g) "parent"
  ∧ get (props g2) "package"
    = if truthy (prop_of (get (props g) "parent") "groupId")
      then or_else (get (props g) "package")
                   (prop_of (get (props g) "parent") "groupId")
      else get (props g) "package".
Proof.
  unfold IntegrationTestsGenerator.package_from_parent.
  destruct (get (props g) "parent") as [| |b|s|l|parent] eqn:Hparent;
    cbn [member mbind completion_bind prop_of truthy]; try done;
    try (intros [= <-]; by rewrite Hparent).
  intros [= <-]. destruct (truthy (get parent "groupId")).
  - cbn [options props set_props].
    by rewrite !get_insert, decide_False, decide_True.
  - by rewrite Hparent.
Qed.

(** X10: when [initializing] ends normally with the defaults flag in its
    options, [publish] is defined, so the publish question is not asked. *)
Theorem publish_question_skipped_under_defaults (re re' : RegExp.t)
    (g g' : Generator) :
  initializing re g = Normal (re', g') →
  truthy (get (options g') "defaults") = true →
  IntegrationTestsGenerator.when_publish (props g') = false.
Proof.
  intros Hinit Hflag.
  pose proof (initializing_publish_truthy _ _ _ _ _ Hinit Hflag) as Hpublish.
  unfold IntegrationTestsGenerator.when_publish.
  by destruct (get (props g') "publish").
Qed.

(** X11: a child whose parent bag has a truthy [groupId] always leaves
    [initializing] with a truthy [package]; so when the bag also carries a
    truthy [defaults], the package question is not asked. *)
Theorem child_of_grouped_parent_has_package (re re' : RegExp.t)
    (g g' : Generator) (parent : gmap string value) :
  initializing re g = Normal (re', g') →
  get (props g') "parent" = VObj parent →
  truthy (get parent "groupId") = true →
  truthy (get (props g') "package") = true
  ∧ (truthy (get (props g') "defaults") = true →
     IntegrationTestsGenerator.when_package (props g') = false).
Proof.
  unfold IntegrationTestsGenerator.initializing.
  destruct (IntegrationTestsGenerator.initial_bag re g) as [re0 g0].
  destruct (_initializing g0) as [g1|]; cbn [mbind completion_bind]; [|done].
  destruct (IntegrationTestsGenerator.package_from_parent g1) as [g2|]
    eqn:Hfrom; cbn [mbind completion_bind]; [|done].
  intros [= _ <-].
  destruct (package_from_parent_normal _ _ Hfrom) as (_ & Hparent & Hpackage).
  rewrite !get_publish_default by done. rewrite Hparent.
  intros Hp Hgroup. rewrite Hp in Hpackage. cbn [prop_of] in Hpackage.
  rewrite Hgroup in Hpackage.
  assert (Htruthy : truthy (get (props g2) "package") = true).
  { rewrite Hpackage. by apply or_else_truthy. }
  split; [done|]. intros Hdefaults.
  unfold IntegrationTestsGenerator.when_package.
  rewrite !get_publish_default by done. by rewrite Hdefaults, Htruthy.
Qed.

(** X12: if the mixin leaves the bag without a parent ([undefined] or
    [null]), [initializing] throws a [TypeError]. *)
Theorem initializing_needs_parent (re : RegExp.t) (g g1 : Generator) :
  _initializing (IntegrationTestsGenerator.initial_bag re g).2 = Normal g1 →
  nullish (get (props g1) "parent") = true →
  initializing re g = Throw TypeError.
Proof.
  intros Hmixin Hparent. unfold IntegrationTestsGenerator.initializing.
  destruct (IntegrationTestsGenerator.initial_bag re g) as [re0 g0].
  cbn [snd] in Hmixin. rewrite Hmixin. cbn [mbind completion_bind].
  unfold IntegrationTestsGenerator.package_from_parent.
  by destruct (get (props g1) "parent").
Qed.

End PhaseFacts.

Section EmissionFacts.

Variable _listTemplates : string → list string.
Variable _latestRelease : value → Promise.t.
Variable _apiCoordinates : value → value.
Variable path_sep : string.

Local Abbreviation files := (IntegrationTestsGenerator.files _listTemplates).
Local Abbreviation writing :=
  (IntegrationTestsGenerator.writing
     _listTemplates _latestRelease _apiCoordinates path_sep).
Local Abbreviation client version :=
  (IntegrationTestsGenerator.testClientCoordinates version).

(** X13: unless the testing-client release is fulfilled, the write phase
    ends the way that release ended - rejected with its reason, or never -
    and it has emitted nothing and left the bag as it was. *)
Theorem writing_stops_with_client_release (g : Generator)
    (parent : gmap string value) :
  get (props g) "parent" = VObj parent →
  (∀ metadata,
     _latestRelease (client (get parent "aemVersion"))
     ≠ Promise.Fulfilled metadata) →
  ∃ g',
    writing g
    = Normal (_latestRelease (client (get parent "aemVersion")), g')
    ∧ written g' = written g
    ∧ props g' = props g.
Proof.
  intros Hparent Hrelease. unfold IntegrationTestsGenerator.writing.
  rewrite Hparent. cbn [member mbind completion_bind].
  unfold Promise.then_.
  destruct (_latestRelease (client (get parent "aemVersion"))) as [m| |];
    [by destruct (Hrelease m)|by eexists..].
Qed.

(** X14: when the testing-client release is fulfilled and [package] is a
    string, the write phase is fulfilled and has emitted exactly once: the
    templates of [files], with the bag extended by [testingClient] (the
    release's metadata), [aem] (undefined) and [packagePath] (the package
    with every period replaced by the path separator). *)
Theorem writing_emits_once (g : Generator) (parent : gmap string value)
    (metadata : value) (package : string) :
  get (props g) "parent" = VObj parent →
  _latestRelease (client (get parent "aemVersion"))
  = Promise.Fulfilled metadata →
  get (props g) "package" = VStr package →
  ∃ g',
    writing g = Normal (Promise.Fulfilled VUndefined, g')
    ∧ props g'
      = <["packagePath" := VStr (replaceAll package "." path_sep)]>
          (<["aem" := VUndefined]>
             (<["testingClient" := metadata]> (props g)))
    ∧ written g' = written g ++ [(files g, props g')].
Proof.
  intros Hparent Hrelease Hpackage.
  unfold IntegrationTestsGenerator.writing.
  rewrite Hparent. cbn [member mbind completion_bind].
  unfold Promise.then_. rewrite Hrelease.
  unfold IntegrationTestsGenerator.on_client, IntegrationTestsGenerator.on_aem.
  cbn [props set_props request].
  rewrite !get_insert, !decide_False by done. rewrite Hpackage.
  by eexists.
Qed.

(** X15: when the testing-client release is fulfilled but [package] is not a
    string, the write phase is rejected with a [TypeError] and has emitted
    nothing. *)
Theorem writing_rejects_without_package (g : Generator)
    (parent : gmap string value) (metadata : value) :
  get (props g) "parent" = VObj parent →
  _latestRelease (client (get parent "aemVersion"))
  = Promise.Fulfilled metadata →
  (∀ package, get (props g) "package" ≠ VStr package) →
  ∃ g',
    writing g = Normal (Promise.Rejected TypeError, g')
    ∧ written g' = written g.
Proof.
  intros Hparent Hrelease Hpackage.
  unfold IntegrationTestsGenerator.writing.
  rewrite Hparent. cbn [member mbind completion_bind].
  unfold Promise.then_. rewrite Hrelease.
  unfold IntegrationTestsGenerator.on_client, IntegrationTestsGenerator.on_aem.
  cbn [props set_props request].
  rewrite !get_insert, !decide_False by done.
  destruct (get (props g) "package") as [| |b|s|l|o] eqn:Hp;
    try by eexists.
  by destruct (Hpackage s).
Qed.

(** X16: whenever the bag has a parent object, the write phase asks the
    metadata service for both artifacts, the testing client first and the
    platform API second, however either request ends. *)
Theorem writing_requests_both_releases (g : Generator)
    (parent : gmap string value) :
  get (props g) "parent" = VObj parent →
  ∃ outcome g',
    writing g = Normal (outcome, g')
    ∧ requested g'
      = requested g
        ++ [client (get parent "aemVersion");
            _apiCoordinates (get parent "aemVersion")].
Proof.
  intros Hparent. unfold IntegrationTestsGenerator.writing.
  rewrite Hparent. cbn [member mbind completion_bind].
  unfold Promise.then_, IntegrationTestsGenerator.on_client,
    IntegrationTestsGenerator.on_aem.
  destruct (_latestRelease (client (get parent "aemVersion")));
    cbn [props set_props request].
  - destruct (get _ "package"); do 2 eexists;
      (split; [reflexivity|]); cbn; by rewrite <- app_assoc.
  - do 2 eexists. split; [reflexivity|]. cbn. by rewrite <- app_assoc.
  - do 2 eexists. split; [reflexivity|]. cbn. by rewrite <- app_assoc.
Qed.

End EmissionFacts.

Section PackagePathFacts.

Lemma valid_package_lacks (package : string) (c : ascii) :
  only_letters_and_periods package = true →
  IntegrationTestsGenerator.is_letter c = false →
  c ≠ "."%char →
  occurs c package = false.
Proof.
  intros Hvalid Hletter Hperiod.
  unfold only_letters_and_periods in Hvalid.
  induction package as [|x package IH]; [done|].
  cbn [list_ascii_of_string forallb] in Hvalid.
  apply andb_true_iff in Hvalid as [Hx Hrest].
  cbn [occurs]. rewrite (IH Hrest), orb_false_r.
  apply Ascii.eqb_neq. intros ->.
  rewrite Hletter in Hx. cbn [orb] in Hx.
  by apply Ascii.eqb_eq in Hx.
Qed.

Lemma replaceAll_back (s : string) (c d : ascii) :
  occurs d s = false →
  replaceAll (replaceAll s c (String d EmptyString)) d (String c EmptyString)
  = s.
Proof.
  induction s as [|x s IH]; [done|].
  cbn [occurs]. intros [Hx Hs]%orb_false_iff.
  cbn [replaceAll]. destruct (Ascii.eqb x c) eqn:Hxc.
  - apply Ascii.eqb_eq in Hxc as ->.
    change (replaceAll (String d (replaceAll s c (String d EmptyString)))
                       d (String c EmptyString) = String c s).
    cbn [replaceAll]. rewrite Ascii.eqb_refl.
    change (String c (replaceAll (replaceAll s c (String d EmptyString))
                                 d (String c EmptyString)) = String c s).
    by rewrite (IH Hs).
  - cbn [replaceAll]. rewrite Hx. by rewrite (IH Hs).
Qed.

Lemma replaceAll_removes (s : string) (c d : ascii) :
  c ≠ d →
  occurs c (replaceAll s c (String d EmptyString)) = false.
Proof.
  intros Hcd. induction s as [|x s IH]; [done|].
  cbn [replaceAll]. destruct (Ascii.eqb x c) eqn:Hxc.
  - change (occurs c (String d (replaceAll s c (String d EmptyString)))
            = false).
    cbn [occurs]. rewrite IH, orb_false_r.
    apply Ascii.eqb_neq. congruence.
  - cbn [occurs]. by rewrite Hxc, IH.
Qed.

(** X17: for a package of letters and periods and a one-character path
    separator that is neither, the package path has no period left, and
    replacing the separators by periods gives the package back. *)
Theorem packagePath_round_trip (package : string) (sep : ascii) :
  only_letters_and_periods package = true →
  IntegrationTestsGenerator.is_letter sep = false →
  sep ≠ "."%char →
  occurs "." (replaceAll package "." (String sep EmptyString)) = false
  ∧ replaceAll (replaceAll package "." (String sep EmptyString))
               sep "."
    = package.
Proof.
  intros Hvalid Hletter Hperiod. split.
  - apply replaceAll_removes. congruence.
  - apply replaceAll_back. by apply valid_package_lacks.
Qed.

End PackagePathFacts.

(* ------------------------------------------------------------------ *)
(** *** The further properties on sample inputs *)
(* ------------------------------------------------------------------ *)

Lemma root_composes_sample_module :
  ∃ paths,
    Forall2 (λ m p, Scenario.require_resolve m = Normal p)
            (AEMGenerator.module_entries
               (get (options Scenario.root) "modules")) paths
    ∧ composed Scenario.root_again
      = composed Scenario.root
        ++ ((λ p, (p, <["parent" := VObj (props Scenario.root_again)]>
                        (Lodash.pick (props Scenario.root_again)
                                     Scenario.common_options)))
              <$> paths).
Proof.
  exact (root_composes_every_module Scenario.path_relative Scenario.path_join
           Scenario.readPom Scenario.common_options Scenario.shared_props
           Scenario.require_resolve Scenario.root Scenario.root_again
           root_first_run).
Defined.

Lemma root_defaults_first_run :
  AEMGenerator.initializing Scenario.path_relative Scenario.path_join
    Scenario.no_pom Scenario.common_options Scenario.shared_props
    Scenario.require_resolve Scenario.root_defaults
  = Normal Scenario.root_defaults_done.
Proof. by vm_compute. Qed.

Lemma root_defaults_on_empty_project :
  truthy (get (options Scenario.root_defaults) "defaults") = true
  ∧ get (props Scenario.root_defaults_done) "version" ≠ VUndefined
  ∧ get (props Scenario.root_defaults_done) "aemVersion" ≠ VUndefined.
Proof.
  split; [reflexivity|].
  exact (root_defaults_fill_version_and_platform Scenario.path_relative
           Scenario.path_join Scenario.no_pom Scenario.common_options
           Scenario.shared_props Scenario.require_resolve
           Scenario.root_defaults Scenario.root_defaults_done
           root_defaults_first_run eq_refl).
Defined.

Lemma valid_package_kept_after_discard :
  only_letters_and_periods "com.mysite" = true
  ∧ props (IntegrationTestsGenerator.initial_bag (invalidPackageRegex_at 4)
             Scenario.valid_package).2 !! "package"
    = Some (VStr "com.mysite").
Proof.
  split; [reflexivity|].
  exact (proj1 (valid_package_kept_in_any_state 4 Scenario.valid_package
                  "com.mysite" eq_refl eq_refl)).
Defined.

Lemma validate_accepts_digit_after_discard :
  only_letters_and_periods "ab1" = false
  ∧ IntegrationTestsGenerator.validate (invalidPackageRegex_at 4) (VStr "ab1")
    = (VBool true, IntegrationTestsGenerator.invalidPackageRegex).
Proof.
  split; [reflexivity|].
  apply (validate_beyond_lastIndex 4 "ab1"); [discriminate|].
  cbn. lia.
Defined.


Lemma no_publish_first_run :
  IntegrationTestsGenerator.initializing Scenario.sample_initializing
    IntegrationTestsGenerator.invalidPackageRegex Scenario.no_publish
  = Normal (IntegrationTestsGenerator.invalidPackageRegex,
            Scenario.no_publish_done).
Proof. by vm_compute. Qed.

Lemma publish_question_skipped_for_no_publish :
  truthy (get (options Scenario.no_publish_done) "defaults") = true
  ∧ IntegrationTestsGenerator.when_publish (props Scenario.no_publish_done)
    = false.
Proof.
  split; [reflexivity|].
  exact (publish_question_skipped_under_defaults Scenario.sample_initializing
           _ _ _ _ no_publish_first_run eq_refl).
Defined.

Lemma invalid_package_first_run :
  IntegrationTestsGenerator.initializing Scenario.sample_initializing
    IntegrationTestsGenerator.invalidPackageRegex Scenario.invalid_package
  = Normal (invalidPackageRegex_at 4, Scenario.invalid_package_done).
Proof. by vm_compute. Qed.

Lemma invalid_package_child_has_package :
  truthy (get (props Scenario.invalid_package_done) "package") = true.
Proof.
  exact (proj1 (child_of_grouped_parent_has_package
                  Scenario.sample_initializing _ _ _ _
                  {[ "groupId" := VStr "com.example";
                     "aemVersion" := VStr "cloud" ]}
                  invalid_package_first_run eq_refl eq_refl)).
Defined.

Lemma standalone_initializing_throws :
  nullish (get (options Scenario.standalone) "parent") = true
  ∧ IntegrationTestsGenerator.initializing Scenario.sample_initializing
      IntegrationTestsGenerator.invalidPackageRegex Scenario.standalone
    = Throw TypeError.
Proof.
  split; [reflexivity|].
  assert (Hmixin :
    Scenario.sample_initializing
      (IntegrationTestsGenerator.initial_bag
         IntegrationTestsGenerator.invalidPackageRegex
         Scenario.standalone).2
    = Normal (set_props {[ "parent" := VUndefined ]} Scenario.standalone))
    by (by vm_compute).
  exact (initializing_needs_parent Scenario.sample_initializing
           IntegrationTestsGenerator.invalidPackageRegex
           Scenario.standalone _ Hmixin eq_refl).
Defined.

Lemma writing_with_service_down :
  ∃ g',
    IntegrationTestsGenerator.writing Scenario.templates Scenario.release_none
      Scenario.api_coordinates "/" Scenario.ready
    = Normal (Promise.Rejected (Error "metadata service unavailable"), g')
    ∧ written g' = written Scenario.ready
    ∧ props g' = props Scenario.ready.
Proof.
  apply (writing_stops_with_client_release Scenario.templates
           Scenario.release_none Scenario.api_coordinates "/" Scenario.ready
           {[ "groupId" := VStr "com.example"; "aemVersion" := VStr "cloud" ]}).
  - reflexivity.
  - intros metadata. discriminate.
Defined.

Lemma writing_emits_once_for_ready :
  ∃ g',
    IntegrationTestsGenerator.writing Scenario.templates Scenario.release
      Scenario.api_coordinates "/" Scenario.ready
    = Normal (Promise.Fulfilled VUndefined, g')
    ∧ props g'
      = <["packagePath" := VStr (replaceAll "com.example" "." "/")]>
          (<["aem" := VUndefined]>
             (<["testingClient" := VObj {[ "version" := VStr "1.2.0" ]}]>
                (props Scenario.ready)))
    ∧ written g'
      = written Scenario.ready
        ++ [(IntegrationTestsGenerator.files Scenario.templates Scenario.ready,
             props g')].
Proof.
  exact (writing_emits_once Scenario.templates Scenario.release
           Scenario.api_coordinates "/" Scenario.ready
           {[ "groupId" := VStr "com.example"; "aemVersion" := VStr "cloud" ]}
           (VObj {[ "version" := VStr "1.2.0" ]}) "com.example"
           eq_refl eq_refl eq_refl).
Defined.

Lemma writing_without_package_rejects :
  ∃ g',
    IntegrationTestsGenerator.writing Scenario.templates Scenario.release
      Scenario.api_coordinates "/" Scenario.ready_without_package
    = Normal (Promise.Rejected TypeError, g')
    ∧ written g' = written Scenario.ready_without_package.
Proof.
  apply (writing_rejects_without_package Scenario.templates Scenario.release
           Scenario.api_coordinates "/" Scenario.ready_without_package
           {[ "groupId" := VStr "com.example"; "aemVersion" := VStr "cloud" ]}
           (VObj {[ "version" := VStr "1.2.0" ]})).
  - reflexivity.
  - reflexivity.
  - intros package. discriminate.
Defined.

Lemma writing_requests_for_ready :
  ∃ outcome g',
    IntegrationTestsGenerator.writing Scenario.templates Scenario.release
      Scenario.api_coordinates "/" Scenario.ready
    = Normal (outcome, g')
    ∧ requested g'
      = requested Scenario.ready
        ++ [IntegrationTestsGenerator.testClientCoordinates
              (get {[ "groupId" := VStr "com.example";
                      "aemVersion" := VStr "cloud" ]} "aemVersion");
            Scenario.api_coordinates
              (get {[ "groupId" := VStr "com.example";
                      "aemVersion" := VStr "cloud" ]} "aemVersion")].
Proof.
  exact (writing_requests_both_releases Scenario.templates Scenario.release
           Scenario.api_coordinates "/" Scenario.ready
           {[ "groupId" := VStr "com.example"; "aemVersion" := VStr "cloud" ]}
           eq_refl).
Defined.

Lemma packagePath_of_com_example :
  replaceAll "com.example" "." "/" = "com/example"
  ∧ replaceAll (replaceAll "com.example" "." "/") "/" "." = "com.example".
Proof.
  split; [reflexivity|].
  apply (packagePath_round_trip "com.example" "/"); [reflexivity..|discriminate].
Defined.
